(** * Crunchbase organization loader: a shallow embedding

    This development embeds the resolution and synchronisation core of
    [crunchbase_orgs/load_organizations.py] (class [LoadOrganizations])
    and states its specification against that embedding.

    Conventions of the embedding:
    - a Python [str] is a [string]; case folding and white space are those
      of the 7-bit ASCII range, other characters are left alone;
    - Python integers are [Z]; list indices produced by [enumerate] are [nat];
    - a Python [set] of strings is a [gset string], a Python [list] a [list];
    - a JSON value that may be [null] is an [option] or a [pyval];
    - the relational store is three tables held as lists of rows, the SQL
      statements of the source are list functions over them;
    - a Python exception is a [Raise] outcome that keeps the state reached;
    - debug printing ([print_indented], [indent_level]), logging and timing
      measurements have no influence on any result and are left out. *)

From stdpp Require Import gmap strings list.
From Stdlib Require Import ZArith Ascii String Lia.

Local Open Scope char_scope.

(** ** Python string operations *)

Module PyStr.

Definition is_upper (c : ascii) : bool :=
  Nat.leb 65 (nat_of_ascii c) && Nat.leb (nat_of_ascii c) 90.

Definition lower_char (c : ascii) : ascii :=
  if is_upper c then ascii_of_nat (nat_of_ascii c + 32) else c.

(** [str.lower()] *)
Fixpoint lower (s : string) : string :=
  match s with
  | EmptyString => EmptyString
  | String c s' => String (lower_char c) (lower s')
  end.

(** White space as [str.strip()] and [str.split()] see it. *)
Definition is_space (c : ascii) : bool :=
  let n := nat_of_ascii c in
  (Nat.leb 9 n && Nat.leb n 13) || (Nat.leb 28 n && Nat.leb n 32).

(** [s.rfind(c)] for a one-character pattern: the last index of [c], or -1. *)
Fixpoint rfind (c : ascii) (s : string) : Z :=
  match s with
  | EmptyString => (-1)%Z
  | String a s' =>
      let r := rfind c s' in
      if (0 <=? r)%Z then (r + 1)%Z
      else if Ascii.eqb a c then 0%Z else (-1)%Z
  end.

(** [s[n:]] for [n >= 0] *)
Fixpoint drop (n : nat) (s : string) : string :=
  match n, s with
  | O, _ => s
  | S n', String _ s' => drop n' s'
  | S _, EmptyString => EmptyString
  end.

(** [s.startswith(p)] *)
Fixpoint startswith (s p : string) : bool :=
  match p, s with
  | EmptyString, _ => true
  | String a p', String b s' => Ascii.eqb a b && startswith s' p'
  | String _ _, EmptyString => false
  end.

(** [pat in s] *)
Fixpoint str_in (pat s : string) : bool :=
  startswith s pat ||
  match s with
  | EmptyString => false
  | String _ s' => str_in pat s'
  end.

(** [s.rstrip(c)] for a one-character set *)
Fixpoint rstrip_char (c : ascii) (s : string) : string :=
  match s with
  | EmptyString => EmptyString
  | String a s' =>
      match rstrip_char c s' with
      | EmptyString => if Ascii.eqb a c then EmptyString else String a EmptyString
      | r => String a r
      end
  end.

Fixpoint lstrip (s : string) : string :=
  match s with
  | EmptyString => EmptyString
  | String a s' => if is_space a then lstrip s' else s
  end.

Fixpoint rstrip (s : string) : string :=
  match s with
  | EmptyString => EmptyString
  | String a s' =>
      match rstrip s' with
      | EmptyString => if is_space a then EmptyString else String a EmptyString
      | r => String a r
      end
  end.

(** [s.strip()] *)
Definition strip (s : string) : string := rstrip (lstrip s).

(** [s.replace(' ', '')] *)
Fixpoint remove_spaces (s : string) : string :=
  match s with
  | EmptyString => EmptyString
  | String a s' =>
      if Ascii.eqb a " " then remove_spaces s' else String a (remove_spaces s')
  end.

(** Splitting at every character that satisfies [sep]; the result is never
    empty, as with [str.split(sep)]. *)
Fixpoint split_at (sep : ascii -> bool) (s : string) : list string :=
  match s with
  | EmptyString => [EmptyString]
  | String a s' =>
      if sep a then EmptyString :: split_at sep s'
      else match split_at sep s' with
           | w :: ws => String a w :: ws
           | [] => [String a EmptyString]
           end
  end.

(** [s.split(c)] *)
Definition split_on (c : ascii) (s : string) : list string :=
  split_at (Ascii.eqb c) s.

Definition nonempty (s : string) : bool :=
  match s with EmptyString => false | _ => true end.

(** [s.split()]: runs of white space separate, empty pieces are dropped. *)
Definition split_ws (s : string) : list string :=
  List.filter nonempty (split_at is_space s).

End PyStr.

(** ** Domain normaliser *)

(** [LoadOrganizations.get_domain_from] *)
Definition get_domain_from (email : string) : option string :=
  let at_sign_ix := PyStr.rfind "@" email in
  let dot_ix := PyStr.rfind "." email in
  let domain :=
    if (0 <? at_sign_ix)%Z && (at_sign_ix + 1 <? dot_ix)%Z
    then Some (PyStr.drop (Z.to_nat (at_sign_ix + 1)) email)
    else None in
  match domain with
  | Some d =>
      (* check for 2nd '@' in address *)
      if PyStr.nonempty d && PyStr.str_in "@" d then None else Some d
  | None => None
  end.

(** [LoadOrganizations.get_initials] *)
Fixpoint initials_after (prev : ascii) (s : string) : string :=
  match s with
  | EmptyString => EmptyString
  | String c s' =>
      if Ascii.eqb prev " " then String c (initials_after c s')
      else initials_after c s'
  end.

Definition get_initials (input_string : string) : string :=
  match input_string with
  | EmptyString => EmptyString
  | String c s' => String c (initials_after c s')
  end.

Section Shorten.

(** The content of [TLD_FILE], read by [get_tld_domain_dict] on first use. *)
Variable tlds : gset string.

(** The loop of [shorten] pops from the right end; it runs here on the
    reversed word list. *)
Fixpoint pop_tlds (rev_words : list string) : list string :=
  match rev_words with
  | w :: ((_ :: _) as rest) =>
      if bool_decide (PyStr.lower w ∈ tlds) then pop_tlds rest else rev_words
  | _ => rev_words
  end.

(** [LoadOrganizations.shorten] *)
Definition shorten (domain : string) : string :=
  let domain := PyStr.rstrip_char "." domain in
  let domain_word_list := PyStr.split_on "." domain in
  let domain_word_list := rev (pop_tlds (rev domain_word_list)) in
  match rev domain_word_list with
  | w :: _ => w
  | [] => EmptyString
  end.

End Shorten.

(** ** Outcomes of Python code *)

Inductive exn : Type :=
| AttributeError
| IndexError
| TypeError
| CardinalityViolation
| SystemExit (code : Z).

Inductive result (A : Type) : Type :=
| Ok (a : A)
| Raise (e : exn).

Arguments Ok {A} a.
Arguments Raise {A} e.

(** A JSON scalar as the provider returns it and as a column holds it. *)
Inductive pyval : Type :=
| PNone
| PStr (s : string)
| PInt (z : Z).

Global Instance pyval_eq_dec : EqDecision pyval.
Proof. solve_decision. Defined.

(** The [properties] object of one item of a provider response. *)
Module Item.
Record properties : Type := {
  name : option string;
  primary_role : pyval;
  short_description : pyval;
  domain : option string;
  homepage_url : pyval;
  facebook_url : pyval;
  twitter_url : pyval;
  linkedin_url : pyval;
  api_url : pyval;
  city_name : pyval;
  region_name : pyval;
  country_code : pyval;
  stock_exchange : pyval;
  stock_symbol : pyval;
  created_at : pyval;
  updated_at : pyval
}.
End Item.

(** ** Match resolver *)

(** [for item in items: if item not in acc: acc.append(item)] *)
Definition append_new {A : Type} `{EqDecision A} (acc items : list A) : list A :=
  fold_left (fun acc item => if bool_decide (item ∈ acc) then acc else acc ++ [item])
            items acc.

(** The [while] loop of [check_mismatches_are_at_end_of_response_list]:
    the length of the common leading run of the two word lists. *)
Fixpoint leading_matches (company_word_list response_word_list : list string) : Z :=
  match company_word_list, response_word_list with
  | c :: cs, r :: rs =>
      if bool_decide (c = r) then (1 + leading_matches cs rs)%Z else 0%Z
  | _, _ => 0%Z
  end.

(** [LoadOrganizations.check_mismatches_are_at_end_of_response_list],
    as the truth value of what it returns. *)
Definition check_mismatches_are_at_end_of_response_list
    (company_word_list response_word_list : list string)
    (ct_word_mismatches : Z) : bool :=
  match company_word_list, response_word_list with
  | [], _ | _, [] => false
  | _, _ =>
      let ct_word_matches := leading_matches company_word_list response_word_list in
      negb (ct_word_matches =? 0)%Z &&
      (ct_word_matches + ct_word_mismatches =? Z.of_nat (List.length response_word_list))%Z
  end.

Inductive flow : Type :=
| Continue (candidate_list : list string) (pick_ix_list : list nat)
| Break (candidate_list : list string) (pick_ix_list : list nat)
| Abort (e : exn).

Section Resolver.

Variable tlds : gset string.

(** [response = shorten(response)] when the name has a dot in it. *)
Definition shorten_if_dotted (response : string) : string :=
  if (PyStr.rfind "." response =? -1)%Z then response else shorten tlds response.

(** [LoadOrganizations.pick_by_matches]; the item is known to carry a name. *)
Definition pick_by_matches (ix : nat) (item_name : string)
    (company_word_list : list string) : list string * list nat :=
  let original_response := item_name in
  let response := shorten_if_dotted item_name in
  let response_word_list := PyStr.split_ws (PyStr.lower response) in
  let ct_word_matches :=
    Z.of_nat (List.length (List.filter (fun item => bool_decide (item ∈ response_word_list))
                                  company_word_list)) in
  let ct_word_mismatches := (Z.of_nat (List.length response_word_list) - ct_word_matches)%Z in
  let ct_word_matches := Z.max ct_word_matches 0 in
  if negb (ct_word_matches =? 0)%Z && (ct_word_mismatches =? 0)%Z
  then ([original_response], [ix])
  else if check_mismatches_are_at_end_of_response_list
            company_word_list response_word_list ct_word_mismatches
  then ([original_response], [ix])
  else ([], []).

(** The rules of [pick_match] that run before the "Venture" test. *)
Definition exact_hit (domain response : string) : bool :=
  bool_decide (PyStr.lower response = PyStr.lower domain).

Definition prefix_hit (domain response : string) : bool :=
  PyStr.startswith (PyStr.lower response) (PyStr.lower domain).

Definition initials_hit (domain response : string) : bool :=
  bool_decide (PyStr.lower (get_initials response) = PyStr.lower domain).

Definition venture_skip (domain response : string) : bool :=
  PyStr.str_in "Venture" response && negb (PyStr.str_in "Venture" domain).

(** The rules that run after it, on the name without its spaces. *)
Definition no_spaces (response : string) : string :=
  PyStr.remove_spaces (PyStr.lower response).

Definition no_spaces_hit (domain response : string) : bool :=
  bool_decide (no_spaces response = PyStr.lower domain).

Definition no_spaces_prefix_hit (domain response : string) : bool :=
  PyStr.startswith (no_spaces response) (PyStr.lower domain).

(** One iteration of the [for] loop of [pick_match]. *)
Definition pick_step (company_word_list : list string) (domain : string)
    (ix : nat) (response_item : Item.properties)
    (candidate_list : list string) (pick_ix_list : list nat) : flow :=
  match Item.name response_item with
  | None => Abort AttributeError
  | Some item_name =>
      let original_response := PyStr.strip item_name in
      let response := shorten_if_dotted original_response in
      if exact_hit domain response then Break [original_response] [ix]
      else
        let '(candidate_list, pick_ix_list) :=
          if prefix_hit domain response
             && negb (bool_decide (original_response ∈ candidate_list))
          then (candidate_list ++ [original_response], pick_ix_list ++ [ix])
          else (candidate_list, pick_ix_list) in
        if initials_hit domain response then Break [original_response] [ix]
        else if venture_skip domain response then Continue candidate_list pick_ix_list
        else if no_spaces_hit domain response then Break [original_response] [ix]
        else
          let '(candidate_list, pick_ix_list) :=
            if no_spaces_prefix_hit domain response
               && negb (bool_decide (original_response ∈ candidate_list))
            then (candidate_list ++ [original_response], pick_ix_list ++ [ix])
            else (candidate_list, pick_ix_list) in
          let '(temp_candidate_list, temp_pick_ix_list) :=
            pick_by_matches ix item_name company_word_list in
          Continue (append_new candidate_list temp_candidate_list)
                   (append_new pick_ix_list temp_pick_ix_list)
  end.

(** The [for ix, response_item in enumerate(...)] loop, from index [ix] on. *)
Fixpoint pick_scan (company_word_list : list string) (domain : string)
    (ix : nat) (items : list Item.properties)
    (candidate_list : list string) (pick_ix_list : list nat)
    : result (list string * list nat) :=
  match items with
  | [] => Ok (candidate_list, pick_ix_list)
  | response_item :: rest =>
      match pick_step company_word_list domain ix response_item
                      candidate_list pick_ix_list with
      | Continue cl pl => pick_scan company_word_list domain (S ix) rest cl pl
      | Break cl pl => Ok (cl, pl)
      | Abort e => Raise e
      end
  end.

(** [LoadOrganizations.pick_match]: [Ok None] stands for [(None, None)]. *)
Definition pick_match (company domain : string) (items : list Item.properties)
    : result (option (nat * string)) :=
  if (Z.of_nat (String.length company) <? 2)%Z then Ok None
  else
    let company_word_list := PyStr.split_on " " (PyStr.lower company) in
    match pick_scan company_word_list domain 0 items [] [] with
    | Raise e => Raise e
    | Ok (candidate_list, pick_ix_list) =>
        match pick_ix_list with
        | [ix] =>
            match candidate_list with
            | c :: _ => Ok (Some (ix, c))
            | [] => Raise IndexError
            end
        | _ => Ok None
        end
    end.

(** [LoadOrganizations.retrieve_pick] *)
Definition retrieve_pick (company domain : string) (items : list Item.properties)
    : result (option (nat * string)) :=
  let domain := shorten tlds domain in
  match pick_match company domain items with
  | Raise e => Raise e
  | Ok (Some (pick_ix, best_name)) =>
      if PyStr.nonempty best_name then Ok (Some (pick_ix, best_name)) else Ok None
  | Ok None => Ok None
  end.

End Resolver.

(** ** Run state and relational store *)

(** The counters and caches of a [LoadOrganizations] object that the
    pipeline updates. *)
Record LoadOrganizations : Type := mkLoadOrganizations {
  domain_misses : Z;
  single_domain_hits : Z;
  multiple_domain_hits : Z;
  name_misses : Z;
  single_name_hits : Z;
  multiple_name_hits : Z;
  ct_isps : Z;
  ct_name_queries : Z;
  items_examined : Z;
  items_skipped : Z;
  items_not_skipped : Z;
  domains_queried : gset string;
  repeat_domains : Z;
  ct_stored : Z
}.

(** [LoadOrganizations.__init__] *)
Definition init_LoadOrganizations : LoadOrganizations :=
  mkLoadOrganizations 0 0 0 0 0 0 0 0 0 0 0 ∅ 0 0.

(** A row of [pn_organizations]: the [id] column, then the seventeen
    columns in the order of the INSERT statement, which is the order
    [is_item_different] relies on when it slices [SELECT *]. *)
Record org_row : Type := {
  org_id : Z;
  org_cols : list pyval
}.

Record lcd_row : Type := {
  lcd_id : Z;
  lcd_company : string
}.

Record license_row : Type := {
  license_contact_details_id : Z;
  organizations_id : option Z
}.

Inductive statement : Type :=
| SELECT_domains
| INSERT_organization
| SELECT_organization_by_domain
| UPDATE_organization
| SELECT_organization_id
| SELECT_license_contact_details
| UPDATE_licenses
| DELETE_organization.

Inductive db_event : Type :=
| Connected
| Executed (q : statement)
| Closed.

Record database : Type := mkDatabase {
  pn_organizations : list org_row;
  pn_license_contact_details : list lcd_row;
  pn_licenses : list license_row;
  next_org_id : Z;
  db_trace : list db_event
}.

Record world : Type := mkWorld {
  self : LoadOrganizations;
  db : database;
  slept : list Z
}.

(** Computations that read and write the world and may raise. *)
Definition M (A : Type) : Type := world -> result A * world.

Definition ret {A : Type} (a : A) : M A := fun w => (Ok a, w).

Definition raise {A : Type} (e : exn) : M A := fun w => (Raise e, w).

Definition bind {A B : Type} (m : M A) (k : A -> M B) : M B :=
  fun w =>
    match m w with
    | (Ok a, w') => k a w'
    | (Raise e, w') => (Raise e, w')
    end.

Notation "'let*' x ':=' m 'in' k" := (bind m (fun x => k))
  (at level 10, x name, m at level 200, k at level 200, only parsing).

Definition lift {A : Type} (r : result A) : M A := fun w => (r, w).

Definition modify_self (f : LoadOrganizations -> LoadOrganizations) : M unit :=
  fun w => (Ok tt, mkWorld (f (self w)) (db w) (slept w)).

Definition get_self : M LoadOrganizations := fun w => (Ok (self w), w).

Definition get_db : M database := fun w => (Ok (db w), w).

Definition put_db (d : database) : M unit :=
  fun w => (Ok tt, mkWorld (self w) d (slept w)).

(** [time.sleep(secs)] *)
Definition sleep (secs : Z) : M unit :=
  fun w => (Ok tt, mkWorld (self w) (db w) (slept w ++ [secs])).

Definition log_event (e : db_event) : M unit :=
  let* d := get_db in
  put_db (mkDatabase (pn_organizations d) (pn_license_contact_details d)
                     (pn_licenses d) (next_org_id d) (db_trace d ++ [e])).

(** Python truth of an integer. *)
Definition truthy (z : Z) : bool := negb (z =? 0)%Z.

(** Python slice bounds: [l[start:stop]], either bound possibly negative. *)
Definition py_bound (len i : Z) : Z :=
  if (i <? 0)%Z then Z.max 0 (len + i) else Z.min i len.

Definition py_slice {A : Type} (start stop : option Z) (l : list A) : list A :=
  let len := Z.of_nat (List.length l) in
  let a := match start with Some i => py_bound len i | None => 0%Z end in
  let b := match stop with Some j => py_bound len j | None => len end in
  take (Z.to_nat (b - a)) (List.skipn (Z.to_nat a) l).

(** [l[i]] for [i >= 0] *)
Definition py_index {A : Type} (l : list A) (i : nat) : M A :=
  match l !! i with
  | Some x => ret x
  | None => raise IndexError
  end.

(** ** Upsert layer *)

Definition set_ct_stored (f : Z -> Z) (s : LoadOrganizations) : LoadOrganizations :=
  mkLoadOrganizations (domain_misses s) (single_domain_hits s) (multiple_domain_hits s)
    (name_misses s) (single_name_hits s) (multiple_name_hits s) (ct_isps s)
    (ct_name_queries s) (items_examined s) (items_skipped s) (items_not_skipped s)
    (domains_queried s) (repeat_domains s) (f (ct_stored s)).

Definition set_organizations (f : list org_row -> list org_row) (d : database) : database :=
  mkDatabase (f (pn_organizations d)) (pn_license_contact_details d) (pn_licenses d)
             (next_org_id d) (db_trace d).

(** The [name] and [domain] columns of a row ([data_item_org[0]] and
    [data_item_org[3]]). *)
Definition org_name (r : org_row) : pyval := default PNone (org_cols r !! 0%nat).
Definition org_domain (r : org_row) : pyval := default PNone (org_cols r !! 3%nat).

(** [psycopg2.connect(...)] and [pg_conn.close()] *)
Definition connect : M unit := log_event Connected.
Definition close : M unit := log_event Closed.

Section Upsert.

(** [self.cur_time], fixed by [__init__]. *)
Variable cur_time : pyval.

(** [LoadOrganizations.setup_data_item_org] *)
Definition setup_data_item_org (single_response : Item.properties)
    : option (list pyval) :=
  match Item.domain single_response, Item.name single_response with
  | Some domain, Some name =>
      Some [ PStr name;
             Item.primary_role single_response;
             Item.short_description single_response;
             PStr (PyStr.rstrip_char "/" domain);
             Item.homepage_url single_response;
             Item.facebook_url single_response;
             Item.twitter_url single_response;
             Item.linkedin_url single_response;
             Item.api_url single_response;
             Item.city_name single_response;
             Item.region_name single_response;
             Item.country_code single_response;
             Item.stock_exchange single_response;
             Item.stock_symbol single_response;
             Item.created_at single_response;
             Item.updated_at single_response;
             cur_time ]
  | _, _ => None
  end.

(** [LoadOrganizations.get_already_stored]:
    [SELECT domain FROM pn_organizations] *)
Definition get_already_stored : M (list pyval) :=
  let* _ := log_event (Executed SELECT_domains) in
  let* d := get_db in
  ret (map org_domain (pn_organizations d)).

(** [LoadOrganizations.do_store_part_1]: the INSERT takes the next value of
    the [id] sequence; its row count is 1. *)
Definition do_store_part_1 (data_item_org : list pyval) : M Z :=
  match data_item_org with
  | [] => raise IndexError
  | _ =>
      let* _ := log_event (Executed INSERT_organization) in
      let* d := get_db in
      let* _ := put_db (mkDatabase
                  (pn_organizations d ++
                     [{| org_id := next_org_id d; org_cols := data_item_org |}])
                  (pn_license_contact_details d) (pn_licenses d)
                  (next_org_id d + 1)%Z (db_trace d)) in
      ret 1%Z
  end.

(** [LoadOrganizations.is_item_different]:
    [SELECT * FROM pn_organizations WHERE domain = %s], first row. *)
Definition is_item_different (data_item_org_augmented : list pyval) : M bool :=
  let* data := py_index data_item_org_augmented 3 in
  let* _ := log_event (Executed SELECT_organization_by_domain) in
  let* d := get_db in
  match List.filter (fun r => bool_decide (org_domain r = data)) (pn_organizations d) with
  | [] => raise TypeError
  | r :: _ =>
      let cursor_result := PInt (org_id r) :: org_cols r in
      let result_list := py_slice (Some 1%Z) (Some (-1)%Z) cursor_result in
      ret (negb (bool_decide
                   (result_list = py_slice None (Some (-2)%Z) data_item_org_augmented)))
  end.

(** [LoadOrganizations.do_update]:
    [UPDATE pn_organizations SET (...) = (...) WHERE domain = %s] *)
Definition do_update (data_item_org : list pyval) : M Z :=
  match data_item_org with
  | [] => raise IndexError
  | _ =>
      let* key := py_index data_item_org 3 in
      let data_item_org_augmented := data_item_org ++ [key] in
      let* changed := is_item_different data_item_org_augmented in
      if negb changed then ret 0%Z
      else
        let* _ := log_event (Executed UPDATE_organization) in
        let* d := get_db in
        let hit := fun r => bool_decide (org_domain r = key) in
        let rowcount := Z.of_nat (List.length (List.filter hit (pn_organizations d))) in
        let* _ := put_db (set_organizations
                    (map (fun r => if hit r
                                   then {| org_id := org_id r; org_cols := data_item_org |}
                                   else r)) d) in
        let* _ := (if (rowcount =? 1)%Z
                   then modify_self (set_ct_stored (fun n => n + 1)%Z)
                   else ret tt) in
        ret rowcount
  end.

(** [LoadOrganizations.get_organization_id]:
    [SELECT id FROM pn_organizations WHERE name = %s], first row. *)
Definition get_organization_id (single_response : Item.properties) : M (option Z) :=
  let* _ := log_event (Executed SELECT_organization_id) in
  let* d := get_db in
  match Item.name single_response with
  | None => ret None
  | Some data =>
      ret (head (map org_id
                   (List.filter (fun r => bool_decide (org_name r = PStr data))
                                (pn_organizations d))))
  end.

(** [LoadOrganizations.get_license_contact_details_id_list]:
    [SELECT id FROM pn_license_contact_details WHERE company = %s] *)
Definition get_license_contact_details_id_list (company : string) : M (list Z) :=
  let* _ := log_event (Executed SELECT_license_contact_details) in
  let* d := get_db in
  ret (map lcd_id
         (List.filter (fun r => bool_decide (lcd_company r = company))
                      (pn_license_contact_details d))).

(** [LoadOrganizations.do_store_part_2]:
    [UPDATE pn_licenses SET organizations_id = %s
     WHERE license_contact_details_id = %s] *)
Definition do_store_part_2 (org_id : option Z) (lic_ct_id : Z) : M Z :=
  let* _ := log_event (Executed UPDATE_licenses) in
  let* d := get_db in
  let hit := fun l => bool_decide (license_contact_details_id l = lic_ct_id) in
  let rowcount := Z.of_nat (List.length (List.filter hit (pn_licenses d))) in
  let* _ := put_db (mkDatabase (pn_organizations d) (pn_license_contact_details d)
              (map (fun l => if hit l
                             then {| license_contact_details_id := license_contact_details_id l;
                                     organizations_id := org_id |}
                             else l) (pn_licenses d))
              (next_org_id d) (db_trace d)) in
  ret rowcount.

(** The scalar subquery of the DELETE statement:
    [SELECT DISTINCT l.organizations_id FROM pn_organizations o2
     LEFT JOIN pn_licenses l ON l.organizations_id = o2.id
     WHERE o2.name = %s].  A row of [o2] without a license gives NULL. *)
Definition linked_organizations_ids (company : string) (d : database)
    : list (option Z) :=
  remove_dups
    (flat_map
       (fun o2 =>
          match List.filter (fun l => bool_decide (organizations_id l = Some (org_id o2)))
                            (pn_licenses d) with
          | [] => [None]
          | ls => map organizations_id ls
          end)
       (List.filter (fun o2 => bool_decide (org_name o2 = PStr company))
                    (pn_organizations d))).

(** [LoadOrganizations.remove_company_from_orgs]:
    [DELETE FROM pn_organizations o WHERE o.name = %s AND (...) IS NULL].
    A scalar subquery that returns more than one row is an SQL error. *)
Definition remove_company_from_orgs (company : string) : M Z :=
  let* _ := log_event (Executed DELETE_organization) in
  let* d := get_db in
  let named := fun o => bool_decide (org_name o = PStr company) in
  match linked_organizations_ids company d with
  | [] | [None] =>
      let rowcount := Z.of_nat (List.length (List.filter named (pn_organizations d))) in
      let* _ := put_db (set_organizations (List.filter (fun o => negb (named o))) d) in
      if truthy rowcount then ret rowcount else ret (-1)%Z
  | [Some _] => ret (-1)%Z
  | _ => raise CardinalityViolation
  end.

(** [LoadOrganizations.store_one_response]; [Some true] and [Some false] are
    the two Booleans it returns, [None] the value of the branch without a
    [return]. *)
Definition store_one_response (single_response : Item.properties) (company : string)
    : M (option bool) :=
  match Item.name single_response, Item.domain single_response with
  | Some name, Some domain =>
      if negb (PyStr.nonempty name) || negb (PyStr.nonempty domain)
      then ret (Some false)
      else
        let updated_part_2 := false in
        let* _ := connect in
        match setup_data_item_org single_response with
        | None => raise TypeError
        | Some data_item_org =>
            (* part 0: get items already stored *)
            let* already_stored := get_already_stored in
            let* key := py_index data_item_org 3 in
            let* parts :=
              (if bool_decide (key ∈ already_stored)
               then
                 let* updated_part_1 := do_update data_item_org in
                 ret (0%Z, 0%Z, updated_part_1)
               else
                 (* part 1: store into pn_organizations *)
                 let* stored_part_1 := do_store_part_1 data_item_org in
                 if truthy stored_part_1 then
                   let* organization_id := get_organization_id single_response in
                   let* license_contact_details_id_list :=
                     get_license_contact_details_id_list company in
                   match license_contact_details_id_list with
                   | [license_contact_details_id] =>
                       (* part 2: store fk into pn_licenses *)
                       let* stored_part_2 :=
                         do_store_part_2 organization_id license_contact_details_id in
                       if truthy stored_part_2 then
                         let* _ := modify_self (set_ct_stored (fun n => n + 1)%Z) in
                         ret (stored_part_1, stored_part_2, 0%Z)
                       else
                         let* _ := remove_company_from_orgs name in
                         ret (stored_part_1, stored_part_2, 0%Z)
                   | _ =>
                       let* _ := remove_company_from_orgs name in
                       ret (stored_part_1, 0%Z, 0%Z)
                   end
                 else ret (stored_part_1, 0%Z, 0%Z)) in
            let '(stored_part_1, stored_part_2, updated_part_1) := parts in
            let* _ := close in
            if truthy stored_part_1 && truthy stored_part_2 then ret (Some true)
            else if truthy updated_part_1 && updated_part_2 then ret None
            else ret (Some false)
        end
  | _, _ => ret (Some false)
  end.

End Upsert.

(** ** Pipeline driver *)

Definition set_ct_isps (f : Z -> Z) (s : LoadOrganizations) : LoadOrganizations :=
  mkLoadOrganizations (domain_misses s) (single_domain_hits s) (multiple_domain_hits s)
    (name_misses s) (single_name_hits s) (multiple_name_hits s) (f (ct_isps s))
    (ct_name_queries s) (items_examined s) (items_skipped s) (items_not_skipped s)
    (domains_queried s) (repeat_domains s) (ct_stored s).

Definition set_repeat_domains (f : Z -> Z) (s : LoadOrganizations) : LoadOrganizations :=
  mkLoadOrganizations (domain_misses s) (single_domain_hits s) (multiple_domain_hits s)
    (name_misses s) (single_name_hits s) (multiple_name_hits s) (ct_isps s)
    (ct_name_queries s) (items_examined s) (items_skipped s) (items_not_skipped s)
    (domains_queried s) (f (repeat_domains s)) (ct_stored s).

Definition set_domains_queried (f : gset string -> gset string) (s : LoadOrganizations)
    : LoadOrganizations :=
  mkLoadOrganizations (domain_misses s) (single_domain_hits s) (multiple_domain_hits s)
    (name_misses s) (single_name_hits s) (multiple_name_hits s) (ct_isps s)
    (ct_name_queries s) (items_examined s) (items_skipped s) (items_not_skipped s)
    (f (domains_queried s)) (repeat_domains s) (ct_stored s).

Definition set_domain_misses (f : Z -> Z) (s : LoadOrganizations) : LoadOrganizations :=
  mkLoadOrganizations (f (domain_misses s)) (single_domain_hits s) (multiple_domain_hits s)
    (name_misses s) (single_name_hits s) (multiple_name_hits s) (ct_isps s)
    (ct_name_queries s) (items_examined s) (items_skipped s) (items_not_skipped s)
    (domains_queried s) (repeat_domains s) (ct_stored s).

Definition set_single_domain_hits (f : Z -> Z) (s : LoadOrganizations) : LoadOrganizations :=
  mkLoadOrganizations (domain_misses s) (f (single_domain_hits s)) (multiple_domain_hits s)
    (name_misses s) (single_name_hits s) (multiple_name_hits s) (ct_isps s)
    (ct_name_queries s) (items_examined s) (items_skipped s) (items_not_skipped s)
    (domains_queried s) (repeat_domains s) (ct_stored s).

Definition set_multiple_domain_hits (f : Z -> Z) (s : LoadOrganizations) : LoadOrganizations :=
  mkLoadOrganizations (domain_misses s) (single_domain_hits s) (f (multiple_domain_hits s))
    (name_misses s) (single_name_hits s) (multiple_name_hits s) (ct_isps s)
    (ct_name_queries s) (items_examined s) (items_skipped s) (items_not_skipped s)
    (domains_queried s) (repeat_domains s) (ct_stored s).

Definition set_name_misses (f : Z -> Z) (s : LoadOrganizations) : LoadOrganizations :=
  mkLoadOrganizations (domain_misses s) (single_domain_hits s) (multiple_domain_hits s)
    (f (name_misses s)) (single_name_hits s) (multiple_name_hits s) (ct_isps s)
    (ct_name_queries s) (items_examined s) (items_skipped s) (items_not_skipped s)
    (domains_queried s) (repeat_domains s) (ct_stored s).

Definition set_single_name_hits (f : Z -> Z) (s : LoadOrganizations) : LoadOrganizations :=
  mkLoadOrganizations (domain_misses s) (single_domain_hits s) (multiple_domain_hits s)
    (name_misses s) (f (single_name_hits s)) (multiple_name_hits s) (ct_isps s)
    (ct_name_queries s) (items_examined s) (items_skipped s) (items_not_skipped s)
    (domains_queried s) (repeat_domains s) (ct_stored s).

Definition set_multiple_name_hits (f : Z -> Z) (s : LoadOrganizations) : LoadOrganizations :=
  mkLoadOrganizations (domain_misses s) (single_domain_hits s) (multiple_domain_hits s)
    (name_misses s) (single_name_hits s) (f (multiple_name_hits s)) (ct_isps s)
    (ct_name_queries s) (items_examined s) (items_skipped s) (items_not_skipped s)
    (domains_queried s) (repeat_domains s) (ct_stored s).

Definition set_ct_name_queries (f : Z -> Z) (s : LoadOrganizations) : LoadOrganizations :=
  mkLoadOrganizations (domain_misses s) (single_domain_hits s) (multiple_domain_hits s)
    (name_misses s) (single_name_hits s) (multiple_name_hits s) (ct_isps s)
    (f (ct_name_queries s)) (items_examined s) (items_skipped s) (items_not_skipped s)
    (domains_queried s) (repeat_domains s) (ct_stored s).

Definition set_items_examined (f : Z -> Z) (s : LoadOrganizations) : LoadOrganizations :=
  mkLoadOrganizations (domain_misses s) (single_domain_hits s) (multiple_domain_hits s)
    (name_misses s) (single_name_hits s) (multiple_name_hits s) (ct_isps s)
    (ct_name_queries s) (f (items_examined s)) (items_skipped s) (items_not_skipped s)
    (domains_queried s) (repeat_domains s) (ct_stored s).

Definition set_items_skipped (f : Z -> Z) (s : LoadOrganizations) : LoadOrganizations :=
  mkLoadOrganizations (domain_misses s) (single_domain_hits s) (multiple_domain_hits s)
    (name_misses s) (single_name_hits s) (multiple_name_hits s) (ct_isps s)
    (ct_name_queries s) (items_examined s) (f (items_skipped s)) (items_not_skipped s)
    (domains_queried s) (repeat_domains s) (ct_stored s).

Definition set_items_not_skipped (f : Z -> Z) (s : LoadOrganizations) : LoadOrganizations :=
  mkLoadOrganizations (domain_misses s) (single_domain_hits s) (multiple_domain_hits s)
    (name_misses s) (single_name_hits s) (multiple_name_hits s) (ct_isps s)
    (ct_name_queries s) (items_examined s) (items_skipped s) (f (items_not_skipped s))
    (domains_queried s) (repeat_domains s) (ct_stored s).

Definition incr (n : Z) : Z := (n + 1)%Z.

(** [LoadOrganizations.report_ok] *)
Definition report_ok (s : LoadOrganizations) : bool :=
  (items_examined s - items_skipped s =?
   ct_isps s + domain_misses s + single_domain_hits s +
   multiple_domain_hits s + repeat_domains s)%Z.

(** [LoadOrganizations.tally_domain_hits] *)
Definition tally_domain_hits (response_length : Z) : M unit :=
  if truthy response_length then
    if (response_length =? 1)%Z then modify_self (set_single_domain_hits incr)
    else modify_self (set_multiple_domain_hits incr)
  else modify_self (set_domain_misses incr).

(** [LoadOrganizations.tally_name_hits] *)
Definition tally_name_hits (response_length : Z) : M unit :=
  if truthy response_length then
    if (response_length =? 1)%Z then modify_self (set_single_name_hits incr)
    else modify_self (set_multiple_name_hits incr)
  else modify_self (set_name_misses incr).

Section Driver.

(** Reference data: the contents of [TLD_FILE] and [ISP_FILE]. *)
Variable tlds : gset string.
Variable isp_domains : list string.
Variable cur_time : pyval.
Variable SLEEP_SECS : Z.

(** The provider: the items of the response to a domain query and to a
    name query, which may depend on when the query is made (the number of
    records examined so far). *)
Variable query_cb_orgs_by_domain : Z -> string -> list Item.properties.
Variable query_cb_orgs_by_name : Z -> string -> list Item.properties.

(** Whether [requests.Session()] succeeds at a given attempt. *)
Variable session_ok : Z -> bool.

(** [LoadOrganizations.get_response_len] *)
Definition get_response_len (items : list Item.properties) : Z :=
  Z.of_nat (List.length items).

(** The part of [handle_non_isp_domain] shared by its two branches:
    pick a candidate of the response and store it. *)
Definition pick_and_store (company domain : string) (items : list Item.properties)
    : M (option bool) :=
  let* pick := lift (retrieve_pick tlds company domain items) in
  match pick with
  | Some (pick_ix, pick_company) =>
      let* single_response := py_index items pick_ix in
      store_one_response cur_time single_response company
  | None => ret (Some false)
  end.

(** [LoadOrganizations.handle_non_isp_domain] *)
Definition handle_non_isp_domain (company domain : string) : M (option bool) :=
  let* s := get_self in
  if bool_decide (domain ∈ domains_queried s) then
    let* _ := modify_self (set_repeat_domains incr) in
    ret (Some false)
  else
    let* _ := modify_self (set_domains_queried (fun q => {[domain]} ∪ q)) in
    (* query cb by domain name *)
    let domain_response := query_cb_orgs_by_domain (items_examined s) domain in
    let domain_response_len := get_response_len domain_response in
    let* _ := tally_domain_hits domain_response_len in
    if truthy domain_response_len then
      pick_and_store company domain domain_response
    else
      (* query cb by company name *)
      let name_response := query_cb_orgs_by_name (items_examined s) company in
      let* _ := modify_self (set_ct_name_queries incr) in
      let name_response_len := get_response_len name_response in
      let* _ := tally_name_hits name_response_len in
      if truthy name_response_len then
        pick_and_store company domain name_response
      else ret (Some false).

(** [LoadOrganizations.handle_isp_domain] *)
Definition handle_isp_domain : M unit := modify_self (set_ct_isps incr).

(** [LoadOrganizations.handle_bad_email]: it only writes to the log. *)
Definition handle_bad_email : M unit := ret tt.

(** [LoadOrganizations.handle_company_and_email] *)
Definition handle_company_and_email (company email : string) : M unit :=
  match get_domain_from email with
  | None => handle_bad_email
  | Some domain =>
      if negb (PyStr.nonempty domain) then handle_bad_email
      else if bool_decide (domain ∈ isp_domains) then handle_isp_domain
      else
        let* _ := handle_non_isp_domain company domain in
        ret tt
  end.

(** The [while] loop of [connect_to_cb_or_die]; [None] when the fuel runs
    out before the loop ends. *)
Fixpoint connect_loop (fuel : nat) (connected : bool) (backoff_multiplier : Z)
    : M (option bool) :=
  let backoff := 30%Z in
  if negb connected && (backoff_multiplier <? 5)%Z then
    match fuel with
    | O => ret None
    | S fuel' =>
        if session_ok backoff_multiplier
        then connect_loop fuel' true backoff_multiplier
        else
          let* _ := sleep (backoff * backoff_multiplier)%Z in
          connect_loop fuel' false (backoff_multiplier + 1)%Z
    end
  else ret (Some connected).

(** [LoadOrganizations.connect_to_cb_or_die]; the loop body runs at most
    four times. *)
Definition connect_to_cb_or_die : M unit :=
  let* connected := connect_loop 4 false 1 in
  match connected with
  | Some true => ret tt
  | _ => raise (SystemExit 0)
  end.

(** The [while] loop of [get_each_license] over the records that
    [get_email_and_company] yields. *)
Fixpoint license_loop (records : list (string * string)) : M unit :=
  let start_item := 0%Z in
  let* s := get_self in
  (* introduce delays to keep from exceeding CB request limit *)
  let* _ := (if truthy (items_examined s)
                && negb (truthy (items_not_skipped s mod 25))
                && (start_item <? items_examined s)%Z
             then sleep SLEEP_SECS else ret tt) in
  match records with
  | [] => ret tt
  | (email, company) :: rest =>
      let* _ := modify_self (set_items_examined incr) in
      let* s := get_self in
      if (items_examined s <? start_item)%Z then
        let* _ := modify_self (set_items_skipped incr) in
        license_loop rest
      else
        let* _ := modify_self (set_items_not_skipped incr) in
        let* _ := handle_company_and_email company email in
        license_loop rest
  end.

(** [LoadOrganizations.get_each_license] *)
Definition get_each_license (records : list (string * string)) : M unit :=
  let* _ := connect_to_cb_or_die in
  license_loop records.

End Driver.

(** ** Notions used by the specification *)

Local Close Scope char_scope.

(** A word that [shorten] takes for a top-level or country-code suffix. *)
Definition is_tld (tlds : gset string) (w : string) : Prop := PyStr.lower w ∈ tlds.

(** A [name] or [domain] that Python's [not] accepts: [None] or empty. *)
Definition falsy (v : option string) : Prop := v = None \/ v = Some EmptyString.

(** An item of a response of which only the name is filled in. *)
Definition named (n : string) : Item.properties :=
  {| Item.name := Some n; Item.primary_role := PNone;
     Item.short_description := PNone; Item.domain := None;
     Item.homepage_url := PNone; Item.facebook_url := PNone;
     Item.twitter_url := PNone; Item.linkedin_url := PNone;
     Item.api_url := PNone; Item.city_name := PNone; Item.region_name := PNone;
     Item.country_code := PNone; Item.stock_exchange := PNone;
     Item.stock_symbol := PNone; Item.created_at := PNone;
     Item.updated_at := PNone |}.

(** A candidate that the "Venture" test of [pick_match] takes out: its
    (shortened) name has "Venture" in it, the source domain has not, and
    none of the three rules that run before the test applies to it. *)
Definition venture_excluded (tlds : gset string) (domain : string)
    (response_item : Item.properties) : Prop :=
  exists item_name,
    Item.name response_item = Some item_name /\
    let response := shorten_if_dotted tlds (PyStr.strip item_name) in
    venture_skip domain response = true /\
    exact_hit domain response = false /\
    prefix_hit domain response = false /\
    initials_hit domain response = false.


(** The outcome of one iteration, whatever it is, with the two lists it
    leaves. *)
Definition step_lists (f : flow) : option (list string * list nat) :=
  match f with
  | Continue cl pl | Break cl pl => Some (cl, pl)
  | Abort _ => None
  end.


(** A candidate with a name and a domain, its other fields null. *)
Definition candidate (n d : string) : Item.properties :=
  {| Item.name := Some n; Item.primary_role := PNone;
     Item.short_description := PNone; Item.domain := Some d;
     Item.homepage_url := PNone; Item.facebook_url := PNone;
     Item.twitter_url := PNone; Item.linkedin_url := PNone;
     Item.api_url := PNone; Item.city_name := PNone; Item.region_name := PNone;
     Item.country_code := PNone; Item.stock_exchange := PNone;
     Item.stock_symbol := PNone; Item.created_at := PNone;
     Item.updated_at := PNone |}.

(** A store with one license of the company "Acme Inc" and no organization,
    at the start of a run. *)
Definition example_world : world :=
  mkWorld init_LoadOrganizations
    (mkDatabase []
       [{| lcd_id := 7; lcd_company := "Acme Inc" |}]
       [{| license_contact_details_id := 7; organizations_id := None |}]
       1 [])
    [].

(** A store that already holds an organization "Acme" of another domain, to
    which a license is linked. *)
Definition linked_world : world :=
  mkWorld init_LoadOrganizations
    (mkDatabase
       [{| org_id := 1;
           org_cols := default [] (setup_data_item_org PNone (candidate "Acme" "acme.io")) |}]
       []
       [{| license_contact_details_id := 7; organizations_id := Some 1%Z |}]
       2 [])
    [].

(** What [report_ok] compares: the records examined and not skipped that no
    tally accounts for. *)
Definition unaccounted (s : LoadOrganizations) : Z :=
  (items_examined s - items_skipped s
   - (ct_isps s + domain_misses s + single_domain_hits s
      + multiple_domain_hits s + repeat_domains s))%Z.

(** An address from which [handle_company_and_email] gets no domain. *)
Definition bad_email (email : string) : bool :=
  match get_domain_from email with
  | Some domain => negb (PyStr.nonempty domain)
  | None => true
  end.

(** A computation that, when it returns, has moved [unaccounted] by [delta]
    and has left [items_examined] alone. *)
Definition tallies {A : Type} (delta : Z) (m : M A) : Prop :=
  forall w a w', m w = (Ok a, w') ->
    unaccounted (self w') = (unaccounted (self w) + delta)%Z /\
    items_examined (self w') = items_examined (self w).

(** The number of records with a bad address. *)
Definition bad_emails (records : list (string * string)) : Z :=
  Z.of_nat (List.length (List.filter (fun record => bad_email (fst record)) records)).

(** ** Notions used by the further properties *)

(** Whether the last character of a string is a space. *)
Fixpoint ends_in_space (s : string) : bool :=
  match s with
  | EmptyString => false
  | String c EmptyString => Ascii.eqb c " "
  | String _ s' => ends_in_space s'
  end.

(** [c not in s] for a character [c]. *)
Definition free_of (c : ascii) (s : string) : Prop :=
  PyStr.str_in (String c EmptyString) s = false.

(** A candidate on which the scan of [pick_match] stops: one of the three
    tests that end in [break] holds for it. *)
Definition decisive (tlds : gset string) (domain : string)
    (response_item : Item.properties) : bool :=
  match Item.name response_item with
  | Some item_name =>
      let response := shorten_if_dotted tlds (PyStr.strip item_name) in
      exact_hit domain response
      || initials_hit domain response
      || (negb (venture_skip domain response) && no_spaces_hit domain response)
  | None => false
  end.

(** Every accumulated name is the name, stripped or not, of a candidate
    whose index is accumulated, and every accumulated index has such a name
    accumulated. *)
Definition names_of_indices (items : list Item.properties)
    (candidate_list : list string) (pick_ix_list : list nat) : Prop :=
  (forall c, c ∈ candidate_list ->
     exists j item n, j ∈ pick_ix_list /\ items !! j = Some item /\
                      Item.name item = Some n /\ (c = PyStr.strip n \/ c = n)) /\
  (forall j, j ∈ pick_ix_list ->
     exists item n, items !! j = Some item /\ Item.name item = Some n /\
                    (PyStr.strip n ∈ candidate_list \/ n ∈ candidate_list)).

(** A computation that keeps a property of the world, however it ends. *)
Definition keeps {A : Type} (I : world -> Prop) (m : M A) : Prop :=
  forall w, I w -> I (snd (m w)).

(** The table of organizations has one row for a domain and one row for an
    id, and the sequence of ids is ahead of every row. *)
Definition store_consistent (d : database) : Prop :=
  NoDup (map org_domain (pn_organizations d)) /\
  NoDup (map org_id (pn_organizations d)) /\
  Forall (fun r => (org_id r < next_org_id d)%Z) (pn_organizations d).

(** What the upsert layer is not to touch: every counter but [ct_stored],
    the delays, the license-contact-details table, and which license belongs
    to which contact details. *)
Definition upsert_frame (w0 w : world) : Prop :=
  set_ct_stored (fun _ => 0%Z) (self w) = set_ct_stored (fun _ => 0%Z) (self w0) /\
  (ct_stored (self w0) <= ct_stored (self w))%Z /\
  slept w = slept w0 /\
  pn_license_contact_details (db w) = pn_license_contact_details (db w0) /\
  map license_contact_details_id (pn_licenses (db w))
  = map license_contact_details_id (pn_licenses (db w0)).

(** All columns of a row but the last one, the time of the last
    synchronisation. *)
Definition but_last {A : Type} (l : list A) : list A :=
  take (List.length l - 1) l.

(** A property of the counters that does not look at [ct_stored]. *)
Definition ignores_ct_stored (P : LoadOrganizations -> Prop) : Prop :=
  forall s c, P s -> P (set_ct_stored (fun _ => c) s).


(** How many times the loop of [get_each_license] sleeps while it takes [n]
    records, when [k] records were examined before. *)
Definition throttle_sleeps (k n : Z) : Z :=
  ((k + n) / 25 - (if (k =? 0)%Z then 0 else (k - 1) / 25))%Z.

(** What handling one record leaves alone: the three record counters and
    the delays. *)
Definition record_frame (a b c : Z) (sl : list Z) (w : world) : Prop :=
  items_examined (self w) = a /\ items_skipped (self w) = b /\
  items_not_skipped (self w) = c /\ slept w = sl.

(** The settings that [get_env_vars] reads from the environment. *)
Record settings : Type := {
  api_key : string;
  db_host : string;
  db_name : string;
  db_user : string;
  db_password : string
}.

(** [LoadOrganizations.get_env_vars]: a missing variable ends the process
    with [sys.exit(1)]. *)
Definition get_env_vars (environ : gmap string string) : result settings :=
  match environ !! "API_KEY" with
  | None => Raise (SystemExit 1)
  | Some api_key =>
      match environ !! "DBHOST" with
      | None => Raise (SystemExit 1)
      | Some db_host =>
          match environ !! "DBNAME" with
          | None => Raise (SystemExit 1)
          | Some db_name =>
              match environ !! "DBUSER" with
              | None => Raise (SystemExit 1)
              | Some db_user =>
                  match environ !! "DBPASSWD" with
                  | None => Raise (SystemExit 1)
                  | Some db_password =>
                      Ok {| api_key := api_key; db_host := db_host;
                            db_name := db_name; db_user := db_user;
                            db_password := db_password |}
                  end
              end
          end
      end
  end.

(** The variables that a run needs. *)
Definition required_variables : list string :=
  ["API_KEY"; "DBHOST"; "DBNAME"; "DBUSER"; "DBPASSWD"].

(** The table of organizations of a world is consistent. *)
Definition consistent_world (w : world) : Prop := store_consistent (db w).

(** A triple for a step whose precondition depends on a value read before:
    from [P] the computation returns with [Q], or fails with the table
    still consistent. *)
Definition triple {A : Type} (P : world -> Prop) (m : M A)
    (Q : A -> world -> Prop) : Prop :=
  forall w, P w ->
    match m w with
    | (Ok a, w') => Q a w'
    | (Raise _, w') => consistent_world w'
    end.

(** A provider that knows one organization, under the domain [acme.com] and
    under no name. *)
Definition acme_by_domain (page : Z) (query : string) : list Item.properties :=
  if String.eqb query "acme.com" then [candidate "Acme" "acme.com"] else [].

(** * Properties *)

(** ** Strings *)

Module PyStrFacts.
Import PyStr.

Lemma rfind_ge_m1 c s : (-1 <= rfind c s)%Z.
Proof.
  induction s as [|a s IH]; simpl; [lia|].
  destruct (0 <=? rfind c s)%Z eqn:E; [apply Z.leb_le in E; lia|].
  destruct (Ascii.eqb a c); lia.
Qed.

Lemma rfind_lt_length c s : (rfind c s < Z.of_nat (String.length s))%Z.
Proof.
  induction s as [|a s IH]; simpl String.length; simpl rfind; [lia|].
  destruct (0 <=? rfind c s)%Z; [lia|].
  destruct (Ascii.eqb a c); lia.
Qed.

Lemma startswith_char c s :
  startswith s (String c EmptyString)
  = match s with String b _ => Ascii.eqb c b | EmptyString => false end.
Proof. destruct s as [|b s]; simpl; [done|]. by destruct (Ascii.eqb c b), s. Qed.

(** [c in s] fails exactly when [s.rfind(c)] is -1. *)
Lemma rfind_absent c s :
  str_in (String c EmptyString) s = false <-> rfind c s = (-1)%Z.
Proof.
  induction s as [|a s IH].
  - simpl. tauto.
  - cbn [str_in rfind]. rewrite startswith_char.
    pose proof (rfind_ge_m1 c s) as Hge.
    destruct (0 <=? rfind c s)%Z eqn:E.
    + apply Z.leb_le in E. split.
      * intros H. apply orb_false_iff in H as [_ H]. apply IH in H. lia.
      * lia.
    + apply Z.leb_gt in E. assert (Hr : rfind c s = (-1)%Z) by lia.
      apply IH in Hr. rewrite Hr, orb_false_r.
      rewrite (Ascii.eqb_sym c a).
      destruct (Ascii.eqb a c); split; intros; try done; lia.
Qed.

(** What follows the last occurrence of [c] has no [c] in it. *)
Lemma rfind_drop_absent c s :
  (0 <= rfind c s)%Z ->
  str_in (String c EmptyString) (drop (Z.to_nat (rfind c s + 1)) s) = false.
Proof.
  induction s as [|a s IH]; simpl rfind; [lia|].
  intros H. destruct (0 <=? rfind c s)%Z eqn:E.
  - apply Z.leb_le in E.
    replace (Z.to_nat (rfind c s + 1 + 1)) with (S (Z.to_nat (rfind c s + 1))) by lia.
    simpl. by apply IH.
  - apply Z.leb_gt in E. destruct (Ascii.eqb a c); [|lia].
    simpl. apply rfind_absent. pose proof (rfind_ge_m1 c s). lia.
Qed.

End PyStrFacts.

(** ** Domain extraction *)

(** An address without an at sign has no domain. *)
Lemma get_domain_from_no_at email :
  PyStr.str_in "@" email = false -> get_domain_from email = None.
Proof.
  intros H. apply PyStrFacts.rfind_absent in H.
  unfold get_domain_from. by rewrite H.
Qed.

(** An address whose last dot is not at least two places after its last at
    sign has no domain. *)
Lemma get_domain_from_dot_before_at email :
  (PyStr.rfind "." email <= PyStr.rfind "@" email + 1)%Z ->
  get_domain_from email = None.
Proof.
  intros H. unfold get_domain_from.
  destruct (_ <? PyStr.rfind "." email)%Z eqn:E; [apply Z.ltb_lt in E; lia|].
  by rewrite andb_false_r.
Qed.

(** The test for a second at sign never fires: the domain is cut after the
    last at sign of the address. *)
Lemma get_domain_from_some email :
  (0 < PyStr.rfind "@" email)%Z ->
  (PyStr.rfind "@" email + 1 < PyStr.rfind "." email)%Z ->
  get_domain_from email
  = Some (PyStr.drop (Z.to_nat (PyStr.rfind "@" email + 1)) email).
Proof.
  intros Hat Hdot. unfold get_domain_from.
  apply Z.ltb_lt in Hat as Hat', Hdot. rewrite Hat', Hdot. simpl.
  rewrite PyStrFacts.rfind_drop_absent by lia. by rewrite andb_false_r.
Qed.

(** C3: an address with two at signs is not rejected by [get_domain_from]:
    for ["a@b@c.com"] it returns the domain ["c.com"] instead of [None]. *)
Theorem get_domain_from_two_at_signs :
  get_domain_from "a@b@c.com" = Some "c.com".
Proof. reflexivity. Qed.

(** ** Shortening a domain *)

Section ShortenFacts.

Variable tlds : gset string.

Lemma split_at_nonempty sep s : PyStr.split_at sep s <> [].
Proof.
  destruct s as [|a s]; simpl; [done|].
  destruct (sep a); [done|]. by destruct (PyStr.split_at sep s).
Qed.

(** The loop removes a run of known suffixes from the right and stops at the
    last word or at a word that is not a known suffix. *)
Lemma pop_tlds_spec rev_words :
  rev_words <> [] ->
  exists dropped w rest,
    rev_words = dropped ++ w :: rest /\
    pop_tlds tlds rev_words = w :: rest /\
    Forall (is_tld tlds) dropped /\
    (rest = [] \/ ~ is_tld tlds w).
Proof.
  induction rev_words as [|w ws IH]; [done|]. intros _.
  destruct ws as [|w' ws'].
  - exists [], w, []. simpl. auto.
  - cbn [pop_tlds]. case_bool_decide as Hw.
    + destruct IH as (dropped & x & rest & Heq & Hpop & Hall & Hstop); [done|].
      exists (w :: dropped), x, rest. split; [by rewrite Heq|]. auto.
    + exists [], w, (w' :: ws'). repeat split; auto.
Qed.

End ShortenFacts.

(** C7 (as the code has it): [shorten] strips trailing dots, splits at the
    dots and drops known suffixes from the right while more than one
    segment is left.  Its result is a segment with only known suffixes to
    its right, and it is either the first segment or not a known suffix
    itself. *)
Theorem shorten_rightmost_kept (tlds : gset string) (domain : string) :
  exists kept dropped,
    PyStr.split_on "." (PyStr.rstrip_char "." domain)
      = kept ++ shorten tlds domain :: dropped /\
    Forall (is_tld tlds) dropped /\
    (kept = [] \/ ~ is_tld tlds (shorten tlds domain)).
Proof.
  unfold shorten.
  set (segs := PyStr.split_on "." (PyStr.rstrip_char "." domain)).
  destruct (pop_tlds_spec tlds (rev segs)) as (d & w & rest & Heq & Hpop & Hall & Hstop).
  { intros H. apply (f_equal (@rev string)) in H. rewrite rev_involutive in H.
    by apply (split_at_nonempty (Ascii.eqb ".") (PyStr.rstrip_char "." domain)). }
  rewrite Hpop, rev_involutive.
  exists (rev rest), (rev d). split; [|split].
  - apply (f_equal (@rev string)) in Heq. rewrite rev_involutive in Heq.
    rewrite Heq, rev_app_distr. simpl. by rewrite <- app_assoc.
  - by apply Forall_rev.
  - destruct Hstop as [-> | Hw]; auto.
Qed.

(** C7 (as stated) fails: when every segment is a known suffix the first
    one is kept, and the result is not the empty string. *)
Lemma shorten_all_tlds_nonempty :
  PyStr.split_on "." (PyStr.rstrip_char "." "co.uk") = ["co"; "uk"] /\
  Forall (is_tld {["co"; "uk"]}) ["co"; "uk"] /\
  shorten {["co"; "uk"]} "co.uk" = "co".
Proof.
  split; [reflexivity|]. split; [|by vm_compute].
  repeat constructor; unfold is_tld; simpl; set_solver.
Qed.

(** ** Connecting to the provider *)

Section ConnectFacts.

Variable session_ok : Z -> bool.

(** Four iterations are all the loop of [connect_to_cb_or_die] can make:
    more fuel changes nothing, and the loop always ends. *)
Lemma connect_loop_enough_fuel fuel w :
  4 <= fuel ->
  connect_loop session_ok fuel false 1 w = connect_loop session_ok 4 false 1 w /\
  fst (connect_loop session_ok 4 false 1 w) <> Ok None.
Proof.
  intros Hfuel.
  do 4 (destruct fuel as [|fuel]; [lia|]).
  unfold connect_loop, bind, sleep, ret; simpl.
  destruct (session_ok 1); simpl; [by destruct fuel|].
  destruct (session_ok (1 + 1)); simpl; [by destruct fuel|].
  destruct (session_ok (1 + 1 + 1)); simpl; [by destruct fuel|].
  destruct (session_ok (1 + 1 + 1 + 1)); simpl; by destruct fuel.
Qed.

(** A session that opens at the first attempt costs no delay. *)
Lemma connect_to_cb_or_die_first_attempt w :
  session_ok 1 = true -> connect_to_cb_or_die session_ok w = (Ok tt, w).
Proof.
  intros H. unfold connect_to_cb_or_die, connect_loop, bind, ret. simpl.
  by rewrite H.
Qed.

End ConnectFacts.

(** C6: when the session cannot be opened at any attempt,
    [connect_to_cb_or_die] sleeps 30, 60, 90 and 120 seconds (four attempts,
    delay 30 times the attempt number) and then ends the process through
    [sys.exit(0)]: the exit code of the fatal connect failure is 0. *)
Theorem connect_to_cb_or_die_exit_code (w : world) :
  connect_to_cb_or_die (fun _ => false) w
  = (Raise (SystemExit 0),
     mkWorld (self w) (db w) (slept w ++ [30; 60; 90; 120]%Z)).
Proof.
  unfold connect_to_cb_or_die, connect_loop, bind, sleep, ret, raise. simpl.
  by rewrite <- !app_assoc.
Qed.

(** ** Upsert layer *)

Section UpsertFacts.

Variable cur_time : pyval.

Lemma filter_nil_iff {A : Type} (f : A -> bool) (l : list A) :
  List.filter f l = [] <-> forall x, x ∈ l -> f x = false.
Proof.
  induction l as [|a l IH]; simpl.
  - split; [intros _ x Hx; by apply elem_of_nil in Hx|done].
  - destruct (f a) eqn:Ha; split; try done.
    + intros H. specialize (H a (list_elem_of_here a l)). congruence.
    + intros H x Hx. apply elem_of_cons in Hx as [-> | Hx]; [done|].
      by apply IH.
    + intros H. apply IH. intros x Hx. apply H. by apply list_elem_of_further.
Qed.

Lemma map_if_false {A : Type} (f : A -> bool) (g : A -> A) (l : list A) :
  (forall x, x ∈ l -> f x = false) ->
  map (fun x => if f x then g x else x) l = l.
Proof.
  induction l as [|a l IH]; intros H; simpl; [done|].
  rewrite (H a (list_elem_of_here a l)), IH; [done|].
  intros x Hx. apply H. by apply list_elem_of_further.
Qed.

(** No row of the table carries a domain that is not among the stored ones. *)
Lemma no_row_of_domain key orgs :
  key ∉ map org_domain orgs ->
  List.filter (fun r => bool_decide (org_domain r = key)) orgs = [].
Proof.
  intros Hkey. apply filter_nil_iff. intros r Hr.
  apply bool_decide_eq_false. intros <-. apply Hkey.
  apply list_elem_of_In, in_map, list_elem_of_In, Hr.
Qed.

Local Arguments do_update : simpl never.
Local Arguments remove_company_from_orgs : simpl never.

Ltac run := unfold bind, connect, close, get_already_stored, get_organization_id,
  get_license_contact_details_id_list, do_store_part_1, do_store_part_2,
  log_event, get_db, put_db, modify_self, ret, raise, py_index; simpl.






End UpsertFacts.

(** C10: when the [name] or the [domain] of the chosen candidate is null
    or empty, [store_one_response] returns [False] at once: the world is left
    as it was, so no connection is opened, no statement is executed and no
    counter changes. *)
Theorem store_one_response_without_name_or_domain
    (cur_time : pyval) (single_response : Item.properties) (company : string)
    (w : world) :
  falsy (Item.name single_response) \/ falsy (Item.domain single_response) ->
  store_one_response cur_time single_response company w = (Ok (Some false), w).
Proof.
  unfold store_one_response, falsy. intros H.
  destruct (Item.name single_response) as [n|],
           (Item.domain single_response) as [d|]; try done.
  destruct n as [|a n], d as [|b d]; try done.
  exfalso. destruct H as [[H | H] | [H | H]]; discriminate H.
Qed.

(** ** Match resolver *)

Section ResolverFacts.

Variable tlds : gset string.

Lemma append_new_single {A : Type} `{EqDecision A} (acc : list A) (x : A) :
  append_new acc [x] = if bool_decide (x ∈ acc) then acc else acc ++ [x].
Proof. reflexivity. Qed.

Lemma append_new_prefix {A : Type} `{EqDecision A} (items acc : list A) :
  acc `prefix_of` append_new acc items.
Proof.
  revert acc. induction items as [|x items IH]; intros acc; [done|].
  unfold append_new in *. simpl. case_bool_decide; [apply IH|].
  etrans; [|apply IH]. by apply prefix_app_r.
Qed.

(** [pick_by_matches] proposes the item it was given, or nothing. *)
Lemma pick_by_matches_cases ix item_name company_word_list :
  pick_by_matches tlds ix item_name company_word_list = ([item_name], [ix]) \/
  pick_by_matches tlds ix item_name company_word_list = ([], []).
Proof.
  unfold pick_by_matches.
  repeat match goal with |- context [if ?b then _ else _] => destruct b end; auto.
Qed.

Ltac step_cases :=
  repeat match goal with
         | |- context [if ?b then _ else _] => destruct b eqn:?
         | |- context [bool_decide ?P] => destruct (bool_decide P) eqn:?
         end.

(** An iteration adds no index but its own. *)
Lemma pick_step_indices cwl domain ix item cl pl cl' pl' :
  step_lists (pick_step tlds cwl domain ix item cl pl) = Some (cl', pl') ->
  forall j, j ∈ pl' -> j ∈ pl \/ j = ix.
Proof.
  unfold pick_step. destruct (Item.name item) as [n|]; [|done].
  destruct (pick_by_matches_cases ix n cwl) as [-> | ->];
    rewrite ?append_new_single; unfold append_new; simpl fold_left;
    step_cases; simpl; intros [= <- <-] j;
    rewrite ?elem_of_app, ?list_elem_of_singleton; tauto.
Qed.

(** A candidate that the "Venture" test takes out leaves both lists as
    they were, and the scan goes on. *)
Lemma pick_step_venture_excluded cwl domain ix item cl pl :
  venture_excluded tlds domain item ->
  pick_step tlds cwl domain ix item cl pl = Continue cl pl.
Proof.
  intros (n & Hn & Hv & He & Hp & Hi). unfold pick_step.
  by rewrite Hn, He, Hp, Hi, Hv.
Qed.

(** An index that an iteration adds is its own, and the candidate was not
    taken out by the "Venture" test. *)
Lemma pick_step_new_index cwl domain ix item cl pl cl' pl' j :
  step_lists (pick_step tlds cwl domain ix item cl pl) = Some (cl', pl') ->
  j ∈ pl' ->
  j ∈ pl \/ (j = ix /\ ~ venture_excluded tlds domain item).
Proof.
  intros Hstep Hj. destruct (decide (j ∈ pl)) as [Hin | Hout]; [by left|right].
  destruct (pick_step_indices _ _ _ _ _ _ _ _ Hstep j Hj) as [? | ->]; [done|].
  split; [done|]. intros Hex.
  rewrite (pick_step_venture_excluded _ _ _ _ _ _ Hex) in Hstep.
  injection Hstep as <- <-. done.
Qed.

(** Every index that the scan adds is the position of a candidate that the
    "Venture" test did not take out. *)
Lemma pick_scan_indices cwl domain items :
  forall ix cl pl cl' pl',
    pick_scan tlds cwl domain ix items cl pl = Ok (cl', pl') ->
    forall j, j ∈ pl' ->
      j ∈ pl \/
      exists item, items !! (j - ix)%nat = Some item /\ ix <= j /\
                   ~ venture_excluded tlds domain item.
Proof.
  induction items as [|item rest IH]; intros ix cl pl cl' pl' Hscan j Hj.
  - injection Hscan as <- <-. by left.
  - cbn [pick_scan] in Hscan.
    assert (Hhere : j ∈ pl \/ (j = ix /\ ~ venture_excluded tlds domain item) ->
              j ∈ pl \/
              exists it, (item :: rest) !! (j - ix)%nat = Some it /\ ix <= j /\
                         ~ venture_excluded tlds domain it).
    { intros [? | [-> ?]]; [by left|right].
      exists item. by rewrite Nat.sub_diag. }
    destruct (pick_step tlds cwl domain ix item cl pl) as [cl1 pl1|cl1 pl1|e] eqn:Hstep;
      [| |done].
    + destruct (IH _ _ _ _ _ Hscan j Hj) as [Hin | (it & Hit & Hle & Hex)].
      * apply Hhere. eapply pick_step_new_index; [by rewrite Hstep|done].
      * right. exists it. split; [|split; [lia|done]].
        by replace (j - ix)%nat with (S (j - S ix)) by lia.
    + injection Hscan as <- <-.
      apply Hhere. eapply pick_step_new_index; [by rewrite Hstep|done].
Qed.

(** C2 (as the code has it): a candidate with "Venture" in its name, for
    a source domain without it, is left out by the rules that follow the
    test; when none of the exact, prefix and initials rules, which run
    before the test, applies to it, its index is never the one that
    [pick_match] returns. *)
Theorem venture_excluded_not_picked company domain items i item ix best_name :
  items !! i = Some item ->
  venture_excluded tlds domain item ->
  pick_match tlds company domain items = Ok (Some (ix, best_name)) ->
  ix <> i.
Proof.
  intros Hi Hex Hpick -> . unfold pick_match in Hpick.
  destruct (_ <? 2)%Z; [done|].
  destruct (pick_scan _ _ _ _ _ _ _) as [[cl pl]|e] eqn:Hscan; [|done].
  destruct pl as [|j [|? ?]]; try done.
  destruct cl as [|c cl]; [done|]. injection Hpick as -> ->.
  destruct (pick_scan_indices _ _ _ _ _ _ _ _ Hscan i) as [Hin | (it & Hit & _ & Hnot)].
  - by apply list_elem_of_singleton.
  - by apply elem_of_nil in Hin.
  - rewrite Nat.sub_0_r, Hi in Hit. injection Hit as <-. done.
Qed.

(** C5 (as the code has it): for a candidate that the exact, initials and
    "Venture" tests let through, a name that without its spaces equals the
    source domain ends the scan with this candidate as the only one, and a
    name that without its spaces only starts with the source domain is
    accumulated while the scan goes on. *)
Theorem no_spaces_rules cwl domain ix item item_name cl pl :
  Item.name item = Some item_name ->
  exact_hit domain (shorten_if_dotted tlds (PyStr.strip item_name)) = false ->
  initials_hit domain (shorten_if_dotted tlds (PyStr.strip item_name)) = false ->
  venture_skip domain (shorten_if_dotted tlds (PyStr.strip item_name)) = false ->
  (no_spaces_hit domain (shorten_if_dotted tlds (PyStr.strip item_name)) = true ->
   pick_step tlds cwl domain ix item cl pl = Break [PyStr.strip item_name] [ix]) /\
  (no_spaces_hit domain (shorten_if_dotted tlds (PyStr.strip item_name)) = false ->
   no_spaces_prefix_hit domain (shorten_if_dotted tlds (PyStr.strip item_name)) = true ->
   exists cl' pl',
     pick_step tlds cwl domain ix item cl pl = Continue cl' pl' /\
     PyStr.strip item_name ∈ cl' /\ cl `prefix_of` cl' /\ pl `prefix_of` pl').
Proof.
  intros Hn He Hi Hv. unfold pick_step. rewrite Hn, He.
  set (o := PyStr.strip item_name) in *.
  set (r := shorten_if_dotted tlds o) in *.
  destruct (prefix_hit domain r && negb (bool_decide (o ∈ cl))) eqn:Hp;
    rewrite Hi, Hv; (split; [by intros ->|]); intros -> ->; simpl.
  - apply andb_true_iff in Hp as [_ Hp].
    assert (Ho : o ∈ cl ++ [o]) by (apply elem_of_app; right; apply list_elem_of_singleton; done).
    rewrite (bool_decide_eq_true_2 _ Ho). simpl.
    destruct (pick_by_matches tlds ix item_name cwl) as [tc tp].
    eexists _, _. split; [done|]. split; [|split].
    + eapply elem_of_prefix; [done|apply append_new_prefix].
    + etrans; [|apply append_new_prefix]. by apply prefix_app_r.
    + etrans; [|apply append_new_prefix]. by apply prefix_app_r.
  - destruct (bool_decide (o ∈ cl)) eqn:Ho; simpl;
      destruct (pick_by_matches tlds ix item_name cwl) as [tc tp];
      eexists _, _; (split; [done|]); (split; [|split]).
    + apply bool_decide_eq_true in Ho.
      eapply elem_of_prefix; [done|apply append_new_prefix].
    + apply append_new_prefix.
    + apply append_new_prefix.
    + eapply elem_of_prefix; [|apply append_new_prefix].
      apply elem_of_app; right. by apply list_elem_of_singleton.
    + etrans; [|apply append_new_prefix]. by apply prefix_app_r.
    + etrans; [|apply append_new_prefix]. by apply prefix_app_r.
Qed.

(** *** Names and indices accumulate together *)

Section InStep.

Variable all_names : list string.
Hypothesis all_names_distinct : NoDup all_names.








End InStep.


End ResolverFacts.

(** C2 (as stated) fails: "Acme Ventures" is accumulated by the prefix rule,
    which runs before the "Venture" test, and as the only candidate it is
    the match for the source domain "acme". *)
Lemma acme_ventures_is_picked :
  venture_skip "acme" "Acme Ventures" = true /\
  prefix_hit "acme" "Acme Ventures" = true /\
  pick_match ∅ "Zzz" "acme" [named "Acme Ventures"]
  = Ok (Some (0%nat, "Acme Ventures")).
Proof. repeat split; by vm_compute. Qed.

Lemma venture_excluded_not_picked_witness :
  [named "Acme Corp"; named "Beta Ventures"] !! 1%nat = Some (named "Beta Ventures") /\
  venture_excluded ∅ "acme" (named "Beta Ventures") /\
  pick_match ∅ "Zzz" "acme" [named "Acme Corp"; named "Beta Ventures"]
  = Ok (Some (0%nat, "Acme Corp")) /\
  0%nat <> 1%nat.
Proof.
  assert (H1 : [named "Acme Corp"; named "Beta Ventures"] !! 1%nat
               = Some (named "Beta Ventures")) by reflexivity.
  assert (H2 : venture_excluded ∅ "acme" (named "Beta Ventures")).
  { exists "Beta Ventures". repeat split; vm_compute; reflexivity. }
  assert (H3 : pick_match ∅ "Zzz" "acme" [named "Acme Corp"; named "Beta Ventures"]
               = Ok (Some (0%nat, "Acme Corp"))) by (vm_compute; reflexivity).
  repeat split; try assumption.
  exact (venture_excluded_not_picked ∅ "Zzz" "acme" _ 1%nat _ 0%nat "Acme Corp" H1 H2 H3).
Defined.


(** Two candidates of different names that both start with the source
    domain are a tie, and the result is none. *)
Example ambiguous_prefix_matches :
  pick_match ∅ "Zzz" "acme" [named "Acme Corp"; named "Acme Industries"] = Ok None.
Proof. by vm_compute. Qed.


(** C5 (as stated) fails: a name that without its spaces equals the source
    domain is an immediate win.  "Ac Me" replaces what was accumulated
    before it, ends the scan, and is the match although other candidates
    start with the source domain. *)
Lemma no_spaces_equal_is_immediate_win :
  pick_step ∅ ["zzz"] "acme" 1 (named "Ac Me") ["Acme Corp"] [0%nat]
  = Break ["Ac Me"] [1%nat] /\
  pick_match ∅ "Zzz" "acme"
    [named "Acme Corp"; named "Ac Me"; named "Acme Industries"]
  = Ok (Some (1%nat, "Ac Me")).
Proof. split; by vm_compute. Qed.

Lemma no_spaces_rules_witness :
  Item.name (named "Ac Me Corp") = Some "Ac Me Corp" /\
  exact_hit "acme" (shorten_if_dotted ∅ (PyStr.strip "Ac Me Corp")) = false /\
  initials_hit "acme" (shorten_if_dotted ∅ (PyStr.strip "Ac Me Corp")) = false /\
  venture_skip "acme" (shorten_if_dotted ∅ (PyStr.strip "Ac Me Corp")) = false /\
  no_spaces_hit "acme" (shorten_if_dotted ∅ (PyStr.strip "Ac Me Corp")) = false /\
  no_spaces_prefix_hit "acme" (shorten_if_dotted ∅ (PyStr.strip "Ac Me Corp")) = true /\
  exists cl' pl',
    pick_step ∅ ["zzz"] "acme" 0 (named "Ac Me Corp") [] [] = Continue cl' pl' /\
    PyStr.strip "Ac Me Corp" ∈ cl' /\ [] `prefix_of` cl' /\ [] `prefix_of` pl'.
Proof.
  assert (H1 : Item.name (named "Ac Me Corp") = Some "Ac Me Corp") by reflexivity.
  assert (H2 : exact_hit "acme" (shorten_if_dotted ∅ (PyStr.strip "Ac Me Corp")) = false)
    by (vm_compute; reflexivity).
  assert (H3 : initials_hit "acme" (shorten_if_dotted ∅ (PyStr.strip "Ac Me Corp")) = false)
    by (vm_compute; reflexivity).
  assert (H4 : venture_skip "acme" (shorten_if_dotted ∅ (PyStr.strip "Ac Me Corp")) = false)
    by (vm_compute; reflexivity).
  assert (H5 : no_spaces_hit "acme" (shorten_if_dotted ∅ (PyStr.strip "Ac Me Corp")) = false)
    by (vm_compute; reflexivity).
  assert (H6 : no_spaces_prefix_hit "acme"
                 (shorten_if_dotted ∅ (PyStr.strip "Ac Me Corp")) = true)
    by (vm_compute; reflexivity).
  repeat split; try assumption.
  exact (proj2 (no_spaces_rules ∅ ["zzz"] "acme" 0%nat _ _ [] [] H1 H2 H3 H4) H5 H6).
Defined.

(** ** The upsert layer on concrete stores *)

Lemma store_one_response_without_name_or_domain_witness :
  (falsy (Item.name (named "Acme")) \/ falsy (Item.domain (named "Acme"))) /\
  store_one_response PNone (named "Acme") "Acme Inc" example_world
  = (Ok (Some false), example_world).
Proof.
  assert (H : falsy (Item.name (named "Acme")) \/ falsy (Item.domain (named "Acme")))
    by (right; left; reflexivity).
  split; [exact H|].
  exact (store_one_response_without_name_or_domain PNone (named "Acme") "Acme Inc"
           example_world H).
Defined.




(** ** Pipeline driver *)

Lemma report_ok_unaccounted s : report_ok s = true <-> unaccounted s = 0%Z.
Proof. unfold report_ok, unaccounted. rewrite Z.eqb_eq. lia. Qed.

Section TallyFacts.

Context {A B : Type}.

Lemma tallies_ret (a : A) : tallies 0 (ret a).
Proof. intros w a' w' [= _ <-]. lia. Qed.

Lemma tallies_raise (delta : Z) (e : exn) : tallies delta (@raise A e).
Proof. intros w a w' [=]. Qed.

Lemma tallies_lift (r : result A) : tallies 0 (lift r).
Proof. intros w a w' [= _ <-]. lia. Qed.

Lemma tallies_bind (d1 d2 : Z) (m : M A) (k : A -> M B) :
  tallies d1 m -> (forall a, tallies d2 (k a)) -> tallies (d1 + d2) (bind m k).
Proof.
  intros Hm Hk w b w'' Hrun. unfold bind in Hrun.
  destruct (m w) as [[a|e] w'] eqn:Hmw; [|done].
  destruct (Hm w a w' Hmw) as [H1 H2], (Hk a w' b w'' Hrun) as [H3 H4]. lia.
Qed.

Lemma tallies_bind_0 (d : Z) (m : M A) (k : A -> M B) :
  tallies 0 m -> (forall a, tallies d (k a)) -> tallies d (bind m k).
Proof. intros. replace d with (0 + d)%Z by lia. by apply tallies_bind. Qed.

End TallyFacts.

Lemma tallies_modify_self (delta : Z) (f : LoadOrganizations -> LoadOrganizations) :
  (forall s, unaccounted (f s) = (unaccounted s + delta)%Z /\
             items_examined (f s) = items_examined s) ->
  tallies delta (modify_self f).
Proof. intros Hf w a w' [= _ <-]. apply Hf. Qed.

Lemma tallies_get_self : tallies 0 get_self.
Proof. intros w a w' [= _ <-]. lia. Qed.

Lemma tallies_get_db : tallies 0 get_db.
Proof. intros w a w' [= _ <-]. lia. Qed.

Lemma tallies_put_db d : tallies 0 (put_db d).
Proof. intros w a w' [= _ <-]. simpl. lia. Qed.

Lemma tallies_sleep secs : tallies 0 (sleep secs).
Proof. intros w a w' [= _ <-]. simpl. lia. Qed.

Lemma tallies_log_event e : tallies 0 (log_event e).
Proof. apply tallies_bind_0; [apply tallies_get_db|intros d; apply tallies_put_db]. Qed.

Lemma tallies_py_index {A : Type} (l : list A) i : tallies 0 (py_index l i).
Proof. unfold py_index. destruct (l !! i); [apply tallies_ret|apply tallies_raise]. Qed.

Lemma tallies_ct_stored f : tallies 0 (modify_self (set_ct_stored f)).
Proof. apply tallies_modify_self. intros s. unfold unaccounted. simpl. lia. Qed.

Ltac tally :=
  repeat first
    [ apply tallies_ret | apply tallies_raise | apply tallies_lift
    | apply tallies_get_self | apply tallies_get_db | apply tallies_put_db
    | apply tallies_sleep | apply tallies_log_event | apply tallies_py_index
    | apply tallies_ct_stored
    | apply tallies_bind_0; [|intros ?]
    | match goal with
      | |- tallies _ (match ?x with _ => _ end) => destruct x
      | |- tallies _ (let '(_, _) := ?x in _) => destruct x
      end ].

Section DriverFacts.

Variable tlds : gset string.
Variable isp_domains : list string.
Variable cur_time : pyval.
Variable SLEEP_SECS : Z.
Variable query_cb_orgs_by_domain : Z -> string -> list Item.properties.
Variable query_cb_orgs_by_name : Z -> string -> list Item.properties.
Variable session_ok : Z -> bool.

(** The upsert layer touches no tally of [report_ok]. *)
Lemma tallies_store_one_response single_response company :
  tallies 0 (store_one_response cur_time single_response company).
Proof.
  unfold store_one_response, connect, close, get_already_stored, do_update,
    is_item_different, do_store_part_1, get_organization_id,
    get_license_contact_details_id_list, do_store_part_2, remove_company_from_orgs.
  tally.
Qed.

Lemma tallies_pick_and_store company domain items :
  tallies 0 (pick_and_store tlds cur_time company domain items).
Proof.
  unfold pick_and_store. tally. apply tallies_store_one_response.
Qed.

Ltac counter := apply tallies_modify_self; intros ?; unfold unaccounted, incr; simpl; lia.

Lemma tallies_tally_domain_hits response_length :
  tallies (-1) (tally_domain_hits response_length).
Proof. unfold tally_domain_hits. repeat case_match; counter. Qed.

Lemma tallies_tally_name_hits response_length :
  tallies 0 (tally_name_hits response_length).
Proof. unfold tally_name_hits. repeat case_match; counter. Qed.

(** A domain that is not an ISP's is a repeat, a miss, a single hit or a
    multiple hit: exactly one of these tallies goes up. *)
Lemma tallies_handle_non_isp_domain company domain :
  tallies (-1)
    (handle_non_isp_domain tlds cur_time query_cb_orgs_by_domain
                           query_cb_orgs_by_name company domain).
Proof.
  unfold handle_non_isp_domain.
  apply tallies_bind_0; [apply tallies_get_self|intros s].
  case_bool_decide.
  - replace (-1)%Z with (-1 + 0)%Z by lia.
    apply tallies_bind; [counter|intros _; apply tallies_ret].
  - apply tallies_bind_0; [counter|intros _].
    replace (-1)%Z with (-1 + 0)%Z by lia.
    apply tallies_bind; [apply tallies_tally_domain_hits|intros _].
    case_match; [apply tallies_pick_and_store|].
    apply tallies_bind_0; [counter|intros _].
    apply tallies_bind_0; [apply tallies_tally_name_hits|intros _].
    case_match; [apply tallies_pick_and_store|apply tallies_ret].
Qed.

(** A record with a usable address is accounted for by one tally; a record
    with a bad address is only logged. *)
Lemma tallies_handle_company_and_email company email :
  tallies (if bad_email email then 0 else -1)
    (handle_company_and_email tlds isp_domains cur_time query_cb_orgs_by_domain
                              query_cb_orgs_by_name company email).
Proof.
  unfold handle_company_and_email, bad_email, handle_bad_email, handle_isp_domain.
  destruct (get_domain_from email) as [domain|]; [|apply tallies_ret].
  destruct (negb (PyStr.nonempty domain)); [apply tallies_ret|].
  case_bool_decide; [counter|].
  replace (-1)%Z with (-1 + 0)%Z by lia.
  apply tallies_bind; [apply tallies_handle_non_isp_domain|intros _; apply tallies_ret].
Qed.

(** The loop over the records leaves as many records unaccounted for as
    there are bad addresses among them. *)
Lemma license_loop_unaccounted records :
  forall w w',
    (0 <= items_examined (self w))%Z ->
    license_loop tlds isp_domains cur_time SLEEP_SECS query_cb_orgs_by_domain
                 query_cb_orgs_by_name records w = (Ok tt, w') ->
    unaccounted (self w') = (unaccounted (self w) + bad_emails records)%Z.
Proof.
  induction records as [|[email company] rest IH]; intros w w' Hpos Hrun.
  - cbn [license_loop] in Hrun. unfold bind, get_self, sleep, ret in Hrun.
    destruct (_ && _) in Hrun; injection Hrun as <-; unfold bad_emails; simpl; lia.
  - cbn [license_loop] in Hrun. unfold bind at 1 2, get_self at 1 in Hrun.
    set (w0 := snd ((if truthy (items_examined (self w))
                        && negb (truthy (items_not_skipped (self w) mod 25))
                        && (0 <? items_examined (self w))%Z
                     then sleep SLEEP_SECS else ret tt) w)) in *.
    assert (Hw0 : self w0 = self w) by (unfold w0; by destruct (_ && _)).
    assert (Hsl : (if truthy (items_examined (self w))
                        && negb (truthy (items_not_skipped (self w) mod 25))
                        && (0 <? items_examined (self w))%Z
                     then sleep SLEEP_SECS else ret tt) w = (Ok tt, w0))
      by (unfold w0; by destruct (_ && _)).
    rewrite Hsl in Hrun. unfold bind at 1 2, modify_self at 1, get_self at 1 in Hrun.
    cbn [self items_examined set_items_examined incr] in Hrun.
    rewrite Hw0 in Hrun.
    destruct (_ <? 0)%Z eqn:Hlt in Hrun; [apply Z.ltb_lt in Hlt; unfold incr in Hlt; lia|].
    unfold bind at 1, modify_self at 1 in Hrun. cbn [self db slept] in Hrun.
    unfold bind at 1 in Hrun.
    match type of Hrun with
    | context [handle_company_and_email _ _ _ _ _ ?c ?e ?w1] =>
        destruct (handle_company_and_email tlds isp_domains cur_time
                    query_cb_orgs_by_domain query_cb_orgs_by_name c e w1)
          as [[[]|err] w2] eqn:Hhandle; [|done];
        destruct (tallies_handle_company_and_email c e w1 tt w2 Hhandle) as [Hu He]
    end.
    cbn [self] in Hu, He.
    apply IH in Hrun; [|rewrite He; simpl; unfold incr; lia].
    rewrite Hrun, Hu. unfold bad_emails. cbn [List.filter fst].
    assert (Hstep : unaccounted (set_items_not_skipped incr
                                   (set_items_examined incr (self w)))
                    = (unaccounted (self w) + 1)%Z)
      by (unfold unaccounted, incr; simpl; lia).
    rewrite Hstep. destruct (bad_email email); simpl List.length; lia.
Qed.

(** After a run that has gone through all its records, [report_ok] holds
    exactly when no record had a bad address. *)
Lemma report_ok_after_run records w w' :
  unaccounted (self w) = 0%Z ->
  (0 <= items_examined (self w))%Z ->
  get_each_license tlds isp_domains cur_time SLEEP_SECS query_cb_orgs_by_domain
                   query_cb_orgs_by_name session_ok records w = (Ok tt, w') ->
  report_ok (self w') = true <-> bad_emails records = 0%Z.
Proof.
  intros Hzero Hpos Hrun. unfold get_each_license, bind in Hrun.
  destruct (connect_to_cb_or_die session_ok w) as [[[]|e] w0] eqn:Hconnect; [|done].
  assert (Hself : self w0 = self w).
  { revert Hconnect. unfold connect_to_cb_or_die, connect_loop, bind, sleep, ret, raise.
    simpl.
    destruct (session_ok 1); simpl; [by intros [= <-]|].
    destruct (session_ok (1 + 1)); simpl; [by intros [= <-]|].
    destruct (session_ok (1 + 1 + 1)); simpl; [by intros [= <-]|].
    destruct (session_ok (1 + 1 + 1 + 1)); simpl; [by intros [= <-]|done]. }
  apply license_loop_unaccounted in Hrun; [|by rewrite Hself].
  rewrite report_ok_unaccounted, Hrun, Hself, Hzero. lia.
Qed.

End DriverFacts.

(** C1: a run over one record whose address has no at sign goes through,
    examines one record and skips none, and no tally accounts for the
    record: [report_ok] is false at the end of the run. *)
Theorem report_ok_fails_after_bad_email :
  fst (get_each_license ∅ [] PNone 0 (fun _ _ => []) (fun _ _ => []) (fun _ => true)
         [("joe.example.com", "Acme Inc")] example_world) = Ok tt /\
  items_examined
    (self (snd (get_each_license ∅ [] PNone 0 (fun _ _ => []) (fun _ _ => [])
                  (fun _ => true) [("joe.example.com", "Acme Inc")] example_world)))
  = 1%Z /\
  items_skipped
    (self (snd (get_each_license ∅ [] PNone 0 (fun _ _ => []) (fun _ _ => [])
                  (fun _ => true) [("joe.example.com", "Acme Inc")] example_world)))
  = 0%Z /\
  report_ok
    (self (snd (get_each_license ∅ [] PNone 0 (fun _ _ => []) (fun _ _ => [])
                  (fun _ => true) [("joe.example.com", "Acme Inc")] example_world)))
  = false.
Proof. repeat split; by vm_compute. Qed.

(** * Further properties *)

Local Set Warnings "-clear-no-such-hyp".


(** ** Domain extraction *)

Module DomainFacts.
Import PyStr PyStrFacts.

(** The last occurrence of [c] splits the string around it. *)
Lemma rfind_split c s :
  (0 <= rfind c s)%Z ->
  exists before,
    s = String.append before (String c (drop (Z.to_nat (rfind c s + 1)) s)) /\
    String.length before = Z.to_nat (rfind c s).
Proof.
  induction s as [|a s IH]; simpl rfind; [lia|]. intros H.
  destruct (0 <=? rfind c s)%Z eqn:E.
  - apply Z.leb_le in E. destruct (IH E) as (before & Hs & Hlen).
    exists (String a before). split.
    + replace (Z.to_nat (rfind c s + 1 + 1)) with (S (Z.to_nat (rfind c s + 1))) by lia.
      simpl drop.
      change (String a s
              = String a (String.append before
                            (String c (drop (Z.to_nat (rfind c s + 1)) s)))).
      by f_equal.
    + simpl. lia.
  - destruct (Ascii.eqb a c) eqn:Hac; [|lia].
    apply Ascii.eqb_eq in Hac as ->. by exists EmptyString.
Qed.

(** Cutting a string before the last occurrence of [c] moves that
    occurrence by the length of the cut. *)
Lemma rfind_drop c s n :
  (Z.of_nat n <= rfind c s)%Z ->
  rfind c (drop n s) = (rfind c s - Z.of_nat n)%Z.
Proof.
  revert n. induction s as [|a s IH]; intros n; simpl rfind.
  - pose proof (Nat2Z.is_nonneg n). lia.
  - destruct n as [|n]; [intros _; simpl; lia|]. simpl drop.
    pose proof (rfind_ge_m1 c s) as Hge.
    destruct (0 <=? rfind c s)%Z eqn:E.
    + intros Hn. rewrite IH by lia. lia.
    + apply Z.leb_gt in E. destruct (Ascii.eqb a c); lia.
Qed.

End DomainFacts.

(** What [get_domain_from] has tested when it returns a domain. *)
Lemma get_domain_from_inv (email domain : string) :
  get_domain_from email = Some domain ->
  (0 < PyStr.rfind "@" email)%Z /\
  (PyStr.rfind "@" email + 1 < PyStr.rfind "." email)%Z /\
  domain = PyStr.drop (Z.to_nat (PyStr.rfind "@" email + 1)) email.
Proof.
  unfold get_domain_from.
  destruct (0 <? PyStr.rfind "@" email)%Z eqn:Hat; [|done].
  destruct (_ <? PyStr.rfind "." email)%Z eqn:Hdot; [|done].
  apply Z.ltb_lt in Hat, Hdot. simpl.
  destruct (_ && _); [done|]. by intros [= <-].
Qed.

(** X1: [get_domain_from] rejects an address exactly when its last at sign
    is missing or in first place, or its last dot does not come at least two
    places after that at sign. *)
Theorem get_domain_from_none_iff (email : string) :
  get_domain_from email = None <->
  (PyStr.rfind "@" email <= 0)%Z \/
  (PyStr.rfind "." email <= PyStr.rfind "@" email + 1)%Z.
Proof.
  split.
  - intros Hnone.
    destruct (Z.le_gt_cases (PyStr.rfind "@" email) 0) as [?|Hat]; [by left|].
    destruct (Z.le_gt_cases (PyStr.rfind "." email) (PyStr.rfind "@" email + 1))
      as [?|Hdot]; [by right|].
    rewrite get_domain_from_some in Hnone by lia. done.
  - intros Hbad. destruct (get_domain_from email) as [d|] eqn:Hd; [|done].
    apply get_domain_from_inv in Hd. lia.
Qed.

(** X2: a domain that [get_domain_from] returns is what follows the last at
    sign of the address: the part before it is not empty, the domain has no
    at sign in it, and it has a dot that is not its first character. *)
Theorem get_domain_from_shape (email domain : string) :
  get_domain_from email = Some domain ->
  exists local_part,
    email = String.append local_part (String "@" domain) /\
    local_part <> EmptyString /\
    free_of "@" domain /\
    (0 < PyStr.rfind "." domain)%Z.
Proof.
  intros Hsome. apply get_domain_from_inv in Hsome as (Hat & Hdot & ->).
  destruct (DomainFacts.rfind_split "@" email) as (before & Hsplit & Hlen); [lia|].
  exists before. split; [done|]. split; [|split].
  - intros ->. simpl in Hlen. lia.
  - apply PyStrFacts.rfind_drop_absent. lia.
  - rewrite DomainFacts.rfind_drop by lia. lia.
Qed.

(** ** Initials *)

Lemma initials_after_append prev s rest :
  ends_in_space (String prev s) = false ->
  initials_after prev (String.append s (String " " rest))
  = String.append (initials_after prev s) (get_initials rest).
Proof.
  revert prev. induction s as [|c s IH]; intros prev Hend.
  - simpl in Hend. change (String.append "" (String " " rest)) with (String " " rest).
    cbn [initials_after]. rewrite Hend. by destruct rest.
  - change (String.append (String c s) (String " " rest))
      with (String c (String.append s (String " " rest))).
    cbn [initials_after]. rewrite IH by done.
    by destruct (Ascii.eqb prev " ").
Qed.

(** X3: the initials of two texts joined by one space are the initials of
    the first followed by those of the second, when the first is not empty
    and does not end in a space. *)
Theorem get_initials_append (first rest : string) :
  first <> EmptyString ->
  ends_in_space first = false ->
  get_initials (String.append first (String " " rest))
  = String.append (get_initials first) (get_initials rest).
Proof.
  destruct first as [|c s]; [done|]. intros _ Hend.
  change (String.append (String c s) (String " " rest))
    with (String c (String.append s (String " " rest))).
  cbn [get_initials]. by rewrite initials_after_append.
Qed.

(** ** Shortening a domain *)

Module SplitFacts.
Import PyStr.

Lemma free_of_cons c a s :
  free_of c (String a s) <-> a <> c /\ free_of c s.
Proof.
  unfold free_of. cbn [str_in]. rewrite PyStrFacts.startswith_char.
  rewrite orb_false_iff. split.
  - intros [Hne ?]. split; [|done]. intros ->. by rewrite Ascii.eqb_refl in Hne.
  - intros [Hne ?]. split; [|done]. apply Ascii.eqb_neq. congruence.
Qed.

Lemma free_of_nil c : free_of c EmptyString.
Proof. done. Qed.

(** No piece of a split has the separator in it. *)
Lemma split_on_free c s w : w ∈ split_on c s -> free_of c w.
Proof.
  unfold split_on. revert w. induction s as [|a s IH]; intros w; simpl.
  - intros Hw. apply list_elem_of_singleton in Hw as ->. apply free_of_nil.
  - destruct (Ascii.eqb c a) eqn:Hca.
    + intros Hw. apply elem_of_cons in Hw as [-> | Hw]; [apply free_of_nil|by apply IH].
    + pose proof (split_at_nonempty (Ascii.eqb c) s) as Hne.
      destruct (split_at (Ascii.eqb c) s) as [|w0 ws]; [done|].
      intros Hw. apply elem_of_cons in Hw as [-> | Hw].
      * apply free_of_cons. split.
        -- apply Ascii.eqb_neq in Hca. congruence.
        -- apply IH, list_elem_of_here.
      * by apply IH, list_elem_of_further.
Qed.

(** A string without the separator is its own and only piece. *)
Lemma split_on_free_id c s : free_of c s -> split_on c s = [s].
Proof.
  unfold split_on. induction s as [|a s IH]; intros Hfree; [done|].
  apply free_of_cons in Hfree as [Hne Hfree]. simpl.
  assert (Hca : Ascii.eqb c a = false) by (apply Ascii.eqb_neq; congruence).
  by rewrite Hca, IH.
Qed.

(** Stripping a character that does not occur changes nothing. *)
Lemma rstrip_char_free_id c s : free_of c s -> rstrip_char c s = s.
Proof.
  induction s as [|a s IH]; intros Hfree; [done|].
  apply free_of_cons in Hfree as [Hne Hfree]. simpl. rewrite IH by done.
  destruct s; [|done].
  assert (Hac : Ascii.eqb a c = false) by (by apply Ascii.eqb_neq).
  by rewrite Hac.
Qed.

End SplitFacts.

Section ShortenMore.

Variable tlds : gset string.

Lemma pop_tlds_subseteq rev_words w :
  w ∈ pop_tlds tlds rev_words -> w ∈ rev_words.
Proof.
  induction rev_words as [|a [|b rest] IH]; [done..|].
  cbn [pop_tlds]. case_bool_decide; [|done].
  intros Hw. apply list_elem_of_further. by apply IH.
Qed.

(** The result of [shorten] is one of the pieces between the dots. *)
Lemma shorten_is_segment (domain : string) :
  shorten tlds domain ∈ PyStr.split_on "." (PyStr.rstrip_char "." domain).
Proof.
  unfold shorten. rewrite rev_involutive.
  set (segs := PyStr.split_on "." (PyStr.rstrip_char "." domain)).
  pose proof (pop_tlds_subseteq (rev segs)) as Hsub.
  destruct (pop_tlds_spec tlds (rev segs)) as (d & w & rest & _ & Hpop & _).
  { intros H. apply (f_equal (@rev string)) in H. rewrite rev_involutive in H.
    by apply (split_at_nonempty (Ascii.eqb ".") (PyStr.rstrip_char "." domain)). }
  rewrite Hpop in *. apply list_elem_of_In, in_rev, list_elem_of_In, Hsub, list_elem_of_here.
Qed.

(** A text without a dot is left as it is. *)
Lemma shorten_free_id (domain : string) :
  free_of "." domain -> shorten tlds domain = domain.
Proof.
  intros Hfree. unfold shorten.
  by rewrite SplitFacts.rstrip_char_free_id, SplitFacts.split_on_free_id.
Qed.

(** X4: the result of [shorten] has no dot in it, and [shorten] leaves it
    as it is: shortening twice is shortening once. *)
Theorem shorten_idempotent (domain : string) :
  free_of "." (shorten tlds domain) /\
  shorten tlds (shorten tlds domain) = shorten tlds domain.
Proof.
  assert (Hfree : free_of "." (shorten tlds domain)).
  { eapply SplitFacts.split_on_free, shorten_is_segment. }
  split; [done|]. by apply shorten_free_id.
Qed.

End ShortenMore.

Section ResolverMore.

Variable tlds : gset string.

Ltac step_cases :=
  repeat match goal with
         | |- context [if ?b then _ else _] => destruct b eqn:?
         | |- context [bool_decide ?P] => destruct (bool_decide P) eqn:?
         end.

Ltac props :=
  repeat match goal with
         | H : bool_decide _ = true |- _ => apply bool_decide_eq_true in H
         | H : bool_decide _ = false |- _ => apply bool_decide_eq_false in H
         end.

(** What one iteration does to the two lists: a name it adds is that of
    its candidate, whose index is then accumulated, and the other way
    round. *)
Lemma pick_step_adds cwl domain ix item n cl pl cl' pl' :
  Item.name item = Some n ->
  step_lists (pick_step tlds cwl domain ix item cl pl) = Some (cl', pl') ->
  (forall c, c ∈ cl' ->
     (c ∈ cl /\ (forall j, j ∈ pl -> j ∈ pl')) \/
     ((c = PyStr.strip n \/ c = n) /\ ix ∈ pl')) /\
  (forall j, j ∈ pl' ->
     (j ∈ pl /\ (forall c, c ∈ cl -> c ∈ cl')) \/
     (j = ix /\ (PyStr.strip n ∈ cl' \/ n ∈ cl'))).
Proof.
  intros Hn. unfold pick_step. rewrite Hn.
  destruct (pick_by_matches_cases tlds ix n cwl) as [-> | ->];
    rewrite ?append_new_single; unfold append_new; simpl fold_left;
    step_cases; simpl; intros [= <- <-]; props;
    (split; intros x Hx); set_unfold; naive_solver.
Qed.

Lemma names_of_indices_nil items : names_of_indices items [] [].
Proof. split; intros x Hx; by apply elem_of_nil in Hx. Qed.

Lemma pick_step_names_of_indices cwl domain items ix item cl pl cl' pl' :
  items !! ix = Some item ->
  names_of_indices items cl pl ->
  step_lists (pick_step tlds cwl domain ix item cl pl) = Some (cl', pl') ->
  names_of_indices items cl' pl'.
Proof.
  intros Hix [Hcl Hpl] Hstep.
  destruct (Item.name item) as [n|] eqn:Hn;
    [|by unfold pick_step in Hstep; rewrite Hn in Hstep].
  destruct (pick_step_adds cwl domain ix item n cl pl cl' pl' Hn Hstep) as [Hc Hj].
  split.
  - intros c Hin. destruct (Hc c Hin) as [[Hold Hsub] | [Hnew Hixin]].
    + destruct (Hcl c Hold) as (j & it & m & ? & ? & ? & ?).
      exists j, it, m. auto.
    + by exists ix, item, n.
  - intros j Hin. destruct (Hj j Hin) as [[Hold Hsub] | [-> Hnew]].
    + destruct (Hpl j Hold) as (it & m & ? & ? & [? | ?]);
        exists it, m; auto.
    + by exists item, n.
Qed.

Lemma pick_scan_names_of_indices cwl domain rest :
  forall seen cl pl cl' pl',
    names_of_indices (seen ++ rest) cl pl ->
    pick_scan tlds cwl domain (List.length seen) rest cl pl = Ok (cl', pl') ->
    names_of_indices (seen ++ rest) cl' pl'.
Proof.
  induction rest as [|item rest IH]; intros seen cl pl cl' pl' Hinv Hscan.
  - by injection Hscan as <- <-.
  - cbn [pick_scan] in Hscan.
    assert (Hix : (seen ++ item :: rest) !! List.length seen = Some item)
      by apply list_lookup_middle, eq_refl.
    destruct (pick_step tlds cwl domain (List.length seen) item cl pl)
      as [cl1 pl1|cl1 pl1|e] eqn:Hstep; [| |done].
    + assert (Hinv1 : names_of_indices (seen ++ item :: rest) cl1 pl1).
      { eapply pick_step_names_of_indices; [done..|by rewrite Hstep]. }
      replace (seen ++ item :: rest) with ((seen ++ [item]) ++ rest) in *
        by (by rewrite <- app_assoc).
      apply (IH (seen ++ [item]) cl1 pl1); [done|].
      rewrite length_app. simpl. by rewrite Nat.add_1_r.
    + injection Hscan as <- <-.
      eapply pick_step_names_of_indices; [done..|by rewrite Hstep].
Qed.

(** X5: the index that [pick_match] returns is the position of a candidate
    of the response, and the name it returns is the name of that candidate,
    with or without its surrounding white space. *)
Theorem pick_match_sound company domain items ix best_name :
  pick_match tlds company domain items = Ok (Some (ix, best_name)) ->
  exists item n,
    items !! ix = Some item /\ Item.name item = Some n /\
    (best_name = PyStr.strip n \/ best_name = n).
Proof.
  unfold pick_match. destruct (_ <? 2)%Z; [done|].
  destruct (pick_scan _ _ _ _ _ _ _) as [[cl pl]|e] eqn:Hscan; [|done].
  destruct pl as [|j [|? ?]]; try done.
  destruct cl as [|c cl]; [done|]. intros [= -> ->].
  destruct (pick_scan_names_of_indices _ _ items [] [] [] _ _
              (names_of_indices_nil _) Hscan) as [Hcl _].
  destruct (Hcl best_name (list_elem_of_here _ _)) as (j & item & n & Hj & ? & ? & ?).
  apply list_elem_of_singleton in Hj as ->. by exists item, n.
Qed.

(** The scan fails only on a candidate without a name. *)
Lemma pick_scan_ok cwl domain items :
  Forall (fun item => is_Some (Item.name item)) items ->
  forall ix cl pl, exists cl' pl',
    pick_scan tlds cwl domain ix items cl pl = Ok (cl', pl').
Proof.
  induction 1 as [|item rest [n Hn] _ IH]; intros ix cl pl; [by eexists _, _|].
  cbn [pick_scan].
  destruct (pick_step tlds cwl domain ix item cl pl) as [cl1 pl1|cl1 pl1|e] eqn:Hstep.
  - apply IH.
  - by eexists _, _.
  - unfold pick_step in Hstep. rewrite Hn in Hstep. revert Hstep.
    destruct (pick_by_matches _ _ _ _). step_cases; done.
Qed.

(** X6: when every candidate of the response has a name, [pick_match]
    raises nothing: it returns a match or none. *)
Theorem pick_match_returns company domain items :
  Forall (fun item => is_Some (Item.name item)) items ->
  exists outcome, pick_match tlds company domain items = Ok outcome.
Proof.
  intros Hnames. unfold pick_match. destruct (_ <? 2)%Z; [by eexists|].
  destruct (pick_scan_ok (PyStr.split_on " " (PyStr.lower company)) domain items
              Hnames 0 [] []) as (cl & pl & Hscan).
  rewrite Hscan.
  destruct (pick_scan_names_of_indices _ _ items [] [] [] _ _
              (names_of_indices_nil _) Hscan) as [_ Hpl].
  destruct pl as [|j [|? ?]]; try by eexists.
  destruct cl as [|c cl]; [|by eexists].
  destruct (Hpl j (list_elem_of_here _ _)) as (? & ? & _ & _ & [Hin | Hin]);
    by apply elem_of_nil in Hin.
Qed.

(** A decisive candidate ends the scan with itself as the only one. *)
Lemma pick_step_decisive cwl domain ix item n cl pl :
  Item.name item = Some n ->
  decisive tlds domain item = true ->
  pick_step tlds cwl domain ix item cl pl = Break [PyStr.strip n] [ix].
Proof.
  unfold decisive, pick_step. intros ->.
  destruct (exact_hit _ _); [done|].
  destruct (prefix_hit _ _ && _); (destruct (initials_hit _ _); [done|]);
    (destruct (venture_skip _ _); [done|]); simpl;
    by intros ->.
Qed.

(** A candidate that has a name and is not decisive lets the scan go on. *)
Lemma pick_step_undecisive cwl domain ix item cl pl :
  is_Some (Item.name item) ->
  decisive tlds domain item = false ->
  exists cl' pl', pick_step tlds cwl domain ix item cl pl = Continue cl' pl'.
Proof.
  unfold decisive, pick_step. intros [n ->].
  destruct (exact_hit _ _); [done|].
  destruct (prefix_hit _ _ && _); (destruct (initials_hit _ _); [done|]);
    (destruct (venture_skip _ _); [by eexists _, _|]); simpl;
    intros ->; destruct (_ && _), (pick_by_matches _ _ _ _); by eexists _, _.
Qed.

(** X7: the first decisive candidate of the response (exact match, initials
    match, or match without spaces) is the match, whatever was accumulated
    before it and whatever follows it. *)
Theorem pick_match_first_decisive company domain before item after n :
  (2 <= String.length company)%nat ->
  Forall (fun p => is_Some (Item.name p) /\ decisive tlds domain p = false) before ->
  Item.name item = Some n ->
  decisive tlds domain item = true ->
  pick_match tlds company domain (before ++ item :: after)
  = Ok (Some (List.length before, PyStr.strip n)).
Proof.
  intros Hlen Hbefore Hn Hdec. unfold pick_match.
  destruct (_ <? 2)%Z eqn:Hlt; [apply Z.ltb_lt in Hlt; lia|].
  assert (Hscan : forall ix cl pl,
            pick_scan tlds (PyStr.split_on " " (PyStr.lower company)) domain ix
                      (before ++ item :: after) cl pl
            = Ok ([PyStr.strip n], [(ix + List.length before)%nat])).
  { clear Hlt. induction Hbefore as [|p before [Hp Hnd] _ IH]; intros ix cl pl.
    - simpl. rewrite (pick_step_decisive _ _ _ _ n) by done.
      by rewrite Nat.add_0_r.
    - simpl.
      destruct (pick_step_undecisive (PyStr.split_on " " (PyStr.lower company))
                  domain ix p cl pl Hp Hnd) as (cl1 & pl1 & ->).
      rewrite IH. by rewrite Nat.add_succ_r. }
  by rewrite Hscan.
Qed.

End ResolverMore.

Section KeepsFacts.

Context {A B : Type}.
Variable I : world -> Prop.

Lemma keeps_ret (a : A) : keeps I (ret a).
Proof. by intros w. Qed.

Lemma keeps_raise (e : exn) : keeps I (@raise A e).
Proof. by intros w. Qed.

Lemma keeps_lift (r : result A) : keeps I (lift r).
Proof. by intros w. Qed.

Lemma keeps_bind (m : M A) (k : A -> M B) :
  keeps I m -> (forall a, keeps I (k a)) -> keeps I (bind m k).
Proof.
  intros Hm Hk w Hw. unfold bind. specialize (Hm w Hw).
  destruct (m w) as [[a|e] w']; [by apply Hk|done].
Qed.

End KeepsFacts.

Lemma keeps_py_index {A : Type} I (l : list A) i : keeps I (py_index l i).
Proof. unfold py_index. destruct (l !! i); by intros w. Qed.

Lemma keeps_get_self I : keeps I get_self.
Proof. by intros w. Qed.

Lemma keeps_get_db I : keeps I get_db.
Proof. by intros w. Qed.

Ltac keep_step lem :=
  repeat first
    [ apply keeps_ret | apply keeps_raise | apply keeps_lift
    | apply keeps_py_index | apply keeps_get_self | apply keeps_get_db
    | lem
    | apply keeps_bind; [|intros ?]
    | match goal with
      | |- keeps _ (match ?x with _ => _ end) => destruct x
      | |- keeps _ (let '(_, _) := ?x in _) => destruct x
      end ].

Section UpsertFrame.

Variable cur_time : pyval.
Variable w0 : world.

Lemma frame_put_db d :
  pn_license_contact_details d = pn_license_contact_details (db w0) ->
  map license_contact_details_id (pn_licenses d)
  = map license_contact_details_id (pn_licenses (db w0)) ->
  keeps (upsert_frame w0) (put_db d).
Proof. intros Hl Hk w (? & ? & ? & ? & ?). by repeat split. Qed.

Lemma frame_log_event e : keeps (upsert_frame w0) (log_event e).
Proof. intros w (? & ? & ? & ? & ?). by repeat split. Qed.

Lemma frame_ct_stored :
  keeps (upsert_frame w0) (modify_self (set_ct_stored (fun n => n + 1)%Z)).
Proof. intros w (? & ? & ? & ? & ?). repeat split; try done. simpl. lia. Qed.

Lemma frame_insert data :
  keeps (upsert_frame w0) (do_store_part_1 data).
Proof.
  unfold do_store_part_1. destruct data; [apply keeps_raise|].
  intros w (? & ? & ? & ? & ?). by repeat split.
Qed.

Lemma link_keeps_contact_ids (org_id : option Z) (x : Z) (lics : list license_row) :
  map license_contact_details_id
    (map (fun l => if bool_decide (license_contact_details_id l = x)
                   then {| license_contact_details_id := license_contact_details_id l;
                           organizations_id := org_id |}
                   else l) lics)
  = map license_contact_details_id lics.
Proof.
  rewrite map_map. apply map_ext. intros l. by case_bool_decide.
Qed.

Ltac frame_leaf :=
  match goal with
  | H : upsert_frame _ _ |- _ =>
      destruct H as (? & ? & ? & ? & ?); repeat split; simpl;
      rewrite ?link_keeps_contact_ids; try done; try lia
  end.

Lemma frame_update data :
  keeps (upsert_frame w0) (do_update data).
Proof.
  intros w Hw.
  unfold do_update, is_item_different, py_index, bind, log_event, get_db, put_db,
    modify_self, ret, raise.
  simpl. repeat (case_match; simpl in *; simplify_eq); frame_leaf.
Qed.

Lemma frame_get_already_stored : keeps (upsert_frame w0) get_already_stored.
Proof. intros w Hw. unfold get_already_stored. simpl. frame_leaf. Qed.

Lemma frame_get_organization_id r : keeps (upsert_frame w0) (get_organization_id r).
Proof.
  intros w Hw. unfold get_organization_id, bind, log_event, get_db, put_db, ret.
  simpl. case_match; simpl; frame_leaf.
Qed.

Lemma frame_get_ids company :
  keeps (upsert_frame w0) (get_license_contact_details_id_list company).
Proof. intros w Hw. unfold get_license_contact_details_id_list. simpl. frame_leaf. Qed.

Lemma frame_link org_id x : keeps (upsert_frame w0) (do_store_part_2 org_id x).
Proof. intros w Hw. unfold do_store_part_2. simpl. frame_leaf. Qed.

Lemma frame_remove company :
  keeps (upsert_frame w0) (remove_company_from_orgs company).
Proof.
  intros w Hw.
  unfold remove_company_from_orgs, bind, log_event, get_db, put_db, ret, raise.
  simpl. repeat (case_match; simpl in *; simplify_eq); frame_leaf.
Qed.

(** The upsert layer stays within its frame, however it ends. *)
Lemma frame_store_one_response r company :
  keeps (upsert_frame w0) (store_one_response cur_time r company).
Proof.
  unfold store_one_response, connect, close.
  keep_step ltac:(first [ apply frame_log_event | apply frame_ct_stored
                        | apply frame_insert | apply frame_update
                        | apply frame_get_already_stored
                        | apply frame_get_organization_id | apply frame_get_ids
                        | apply frame_link | apply frame_remove ]).
Qed.

End UpsertFrame.

(** X8: whatever [store_one_response] does and however it ends, it changes
    no counter but [ct_stored], which it never lowers, it adds no delay, it
    leaves the license-contact-details table as it is, and it neither adds
    nor removes a license nor moves one to other contact details. *)
Theorem store_one_response_frame (cur_time : pyval)
    (single_response : Item.properties) (company : string) (w : world) :
  upsert_frame w (snd (store_one_response cur_time single_response company w)).
Proof.
  apply frame_store_one_response. repeat split. lia.
Qed.

(** ** One row for a domain *)

Section Consistent.

Lemma NoDup_map_filter {A B : Type} (f : A -> B) (p : A -> bool) (l : list A) :
  NoDup (map f l) -> NoDup (map f (List.filter p l)).
Proof.
  induction l as [|a l IH]; simpl; [done|]. intros Hnd.
  apply NoDup_cons in Hnd as [Hnotin Hnd].
  destruct (p a); simpl; [|by apply IH].
  apply NoDup_cons. split; [|by apply IH].
  intros Hin. apply Hnotin.
  apply list_elem_of_In, in_map_iff in Hin as (x & <- & Hx).
  apply filter_In in Hx as [Hx _].
  apply list_elem_of_In, in_map. done.
Qed.

Lemma consistent_trace orgs lcds lics nid tr tr' lcds' lics' :
  store_consistent (mkDatabase orgs lcds lics nid tr) ->
  store_consistent (mkDatabase orgs lcds' lics' nid tr').
Proof. done. Qed.

Lemma consistent_insert orgs lcds lics nid tr lcds' lics' tr' key data :
  store_consistent (mkDatabase orgs lcds lics nid tr) ->
  data !! 3%nat = Some key ->
  key ∉ map org_domain orgs ->
  store_consistent
    (mkDatabase (orgs ++ [{| org_id := nid; org_cols := data |}]) lcds' lics'
                (nid + 1) tr').
Proof.
  intros (Hdom & Hid & Hlt) Hkey Hnew. unfold store_consistent. simpl in *.
  rewrite !map_app. simpl. split; [|split].
  - apply NoDup_app. split; [done|]. split; [|apply NoDup_singleton].
    intros x Hx Hx'. apply list_elem_of_singleton in Hx'. subst x.
    unfold org_domain in Hx at 1. simpl in Hx. by rewrite Hkey in Hx.
  - apply NoDup_app. split; [done|]. split; [|apply NoDup_singleton].
    intros x Hx Hx'. apply list_elem_of_singleton in Hx'. subst x.
    apply list_elem_of_In, in_map_iff in Hx as (r & Hr & Hin).
    pose proof (proj1 (Forall_forall _ _) Hlt r (proj2 (list_elem_of_In _ _) Hin)) as Hr'.
    simpl in Hr'. lia.
  - apply Forall_app. split.
    + eapply Forall_impl; [done|]. simpl. intros; lia.
    + apply Forall_singleton. simpl. lia.
Qed.

Lemma consistent_update orgs lcds lics nid tr tr' key data :
  store_consistent (mkDatabase orgs lcds lics nid tr) ->
  data !! 3%nat = Some key ->
  store_consistent
    (mkDatabase
       (map (fun r => if bool_decide (org_domain r = key)
                      then {| org_id := org_id r; org_cols := data |} else r) orgs)
       lcds lics nid tr').
Proof.
  intros (Hdom & Hid & Hlt) Hkey. unfold store_consistent. simpl in *.
  rewrite !map_map.
  assert (Hd : map (fun r => org_domain
                      (if bool_decide (org_domain r = key)
                       then {| org_id := org_id r; org_cols := data |} else r)) orgs
               = map org_domain orgs).
  { apply map_ext. intros r. case_bool_decide as Hr; [|done].
    rewrite Hr. unfold org_domain. simpl. by rewrite Hkey. }
  assert (Hi : map (fun r => org_id
                      (if bool_decide (org_domain r = key)
                       then {| org_id := org_id r; org_cols := data |} else r)) orgs
               = map org_id orgs).
  { apply map_ext. intros r. by case_bool_decide. }
  rewrite Hd, Hi. split; [done|]. split; [done|].
  apply Forall_forall. intros r Hr.
  apply list_elem_of_In, in_map_iff in Hr as (r0 & <- & Hr0).
  pose proof (proj1 (Forall_forall _ _) Hlt r0 (proj2 (list_elem_of_In _ _) Hr0)) as Hr'.
  simpl in Hr'. by case_bool_decide.
Qed.

Lemma consistent_filter orgs lcds lics nid tr tr' p :
  store_consistent (mkDatabase orgs lcds lics nid tr) ->
  store_consistent (mkDatabase (List.filter p orgs) lcds lics nid tr').
Proof.
  intros (Hdom & Hid & Hlt). unfold store_consistent. simpl in *.
  split; [by apply NoDup_map_filter|]. split; [by apply NoDup_map_filter|].
  apply Forall_forall. intros r Hr. apply list_elem_of_In, filter_In in Hr as [Hr _].
  by apply (proj1 (Forall_forall _ _) Hlt), list_elem_of_In.
Qed.

Ltac db_leaf :=
  match goal with
  | H : consistent_world ?w |- _ =>
      unfold consistent_world in *; destruct w as [? [? ? ? ? ?] ?]; simpl in *;
      first [ exact H
            | by eapply consistent_trace
            | by eapply consistent_filter
            | by eapply consistent_update ]
  end.

Lemma consistent_log_event e : keeps consistent_world (log_event e).
Proof. intros w Hw. unfold log_event. simpl. db_leaf. Qed.

Lemma consistent_modify_self f : keeps consistent_world (modify_self f).
Proof. by intros w Hw. Qed.

Lemma consistent_sleep secs : keeps consistent_world (sleep secs).
Proof. by intros w Hw. Qed.

Lemma consistent_get_organization_id r :
  keeps consistent_world (get_organization_id r).
Proof.
  intros w Hw. unfold get_organization_id, bind, log_event, get_db, put_db, ret.
  simpl. case_match; simpl; db_leaf.
Qed.

Lemma consistent_get_ids company :
  keeps consistent_world (get_license_contact_details_id_list company).
Proof. intros w Hw. unfold get_license_contact_details_id_list. simpl. db_leaf. Qed.

Lemma consistent_link org_id x : keeps consistent_world (do_store_part_2 org_id x).
Proof. intros w Hw. unfold do_store_part_2. simpl. db_leaf. Qed.

Lemma consistent_remove company :
  keeps consistent_world (remove_company_from_orgs company).
Proof.
  intros w Hw.
  unfold remove_company_from_orgs, bind, log_event, get_db, put_db, ret, raise.
  simpl. repeat (case_match; simpl in *; simplify_eq); db_leaf.
Qed.

Lemma consistent_do_update data : keeps consistent_world (do_update data).
Proof.
  intros w Hw.
  unfold do_update, is_item_different, py_index, bind, log_event, get_db, put_db,
    modify_self, ret, raise.
  simpl. repeat (case_match; simpl in *; simplify_eq); db_leaf.
Qed.

Variable cur_time : pyval.

Lemma triple_bind {A B : Type} P (m : M A) Q (k : A -> M B) R :
  triple P m Q -> (forall a, triple (Q a) (k a) R) -> triple P (bind m k) R.
Proof.
  intros Hm Hk w Hw. unfold bind. specialize (Hm w Hw).
  destruct (m w) as [[a|e] w']; [by apply Hk|done].
Qed.

Lemma triple_keeps {A : Type} (m : M A) :
  keeps consistent_world m -> triple consistent_world m (fun _ => consistent_world).
Proof. intros Hm w Hw. specialize (Hm w Hw). by destruct (m w) as [[a|e] w']. Qed.

Lemma triple_result {A : Type} P (m : M A) Q w :
  triple P m Q -> P w -> (forall a w', Q a w' -> consistent_world w') ->
  consistent_world (snd (m w)).
Proof.
  intros Hm Hw HQ. specialize (Hm w Hw).
  destruct (m w) as [[a|e] w']; simpl; eauto.
Qed.

Lemma store_one_response_keeps_consistent
    (single_response : Item.properties) (company : string) :
  keeps consistent_world (store_one_response cur_time single_response company).
Proof.
  intros w Hw.
  apply (triple_result consistent_world _ (fun _ => consistent_world));
    [|done|done].
  unfold store_one_response.
  destruct (Item.name single_response) as [name|] eqn:Hname;
    [|by apply triple_keeps, keeps_ret].
  destruct (Item.domain single_response) as [domain|] eqn:Hdomain;
    [|by apply triple_keeps, keeps_ret].
  destruct (negb _ || negb _); [by apply triple_keeps, keeps_ret|].
  unfold setup_data_item_org. rewrite Hname, Hdomain.
  set (data := [PStr name; _; _; _; _; _; _; _; _; _; _; _; _; _; _; _; _]).
  set (key := PStr (PyStr.rstrip_char "/" domain)).
  apply triple_bind with (Q := fun _ => consistent_world).
  { apply triple_keeps. apply consistent_log_event. }
  intros _.
  apply triple_bind
    with (Q := fun stored w => consistent_world w /\
                               stored = map org_domain (pn_organizations (db w))).
  { intros w1 Hw1. unfold get_already_stored. simpl. split; [|done].
    revert Hw1. unfold consistent_world. destruct w1 as [? [? ? ? ? ?] ?]. simpl.
    apply consistent_trace. }
  intros already_stored.
  apply triple_bind
    with (Q := fun k w => consistent_world w /\
                          already_stored = map org_domain (pn_organizations (db w)) /\
                          k = key).
  { by intros w1 [Hw1 Hst]. }
  intros k.
  assert (Htail : forall parts : Z * Z * Z,
     triple consistent_world
       (let '(stored_part_1, stored_part_2, updated_part_1) := parts in
        bind close (fun _ =>
          if truthy stored_part_1 && truthy stored_part_2 then ret (Some true)
          else if truthy updated_part_1 && false then ret None
          else ret (Some false)))
       (fun _ => consistent_world)).
  { intros [[a b] c]. apply triple_keeps. unfold close.
    keep_step ltac:(apply consistent_log_event). }
  apply triple_bind with (Q := fun _ => consistent_world); [|apply Htail].
  case_bool_decide as Hin.
  - intros w1 (Hw1 & _ & _). revert w1 Hw1. apply triple_keeps.
    apply keeps_bind; [apply consistent_do_update|intros; apply keeps_ret].
  - apply triple_bind with (Q := fun _ => consistent_world).
    + intros w1 (Hw1 & -> & ->). unfold do_store_part_1. simpl.
      revert Hw1 Hin. unfold consistent_world. destruct w1 as [? [? ? ? ? ?] ?]. simpl.
      intros. by eapply consistent_insert.
    + intros stored_part_1. apply triple_keeps.
      keep_step ltac:(first [ apply consistent_log_event | apply consistent_modify_self
                            | apply consistent_get_organization_id
                            | apply consistent_get_ids | apply consistent_link
                            | apply consistent_remove ]).
Qed.

(** X9: [store_one_response] keeps the table of organizations consistent -
    at most one row for a domain, at most one row for an id, every id behind
    the sequence - whether it inserts, updates, removes, or fails. *)
Theorem store_one_response_consistent
    (single_response : Item.properties) (company : string) (w : world) :
  store_consistent (db w) ->
  store_consistent (db (snd (store_one_response cur_time single_response company w))).
Proof. apply store_one_response_keeps_consistent. Qed.

End Consistent.

(** ** A domain that is already stored *)

Lemma py_slice_row {A : Type} (x : A) (l : list A) :
  py_slice (Some 1%Z) (Some (-1)%Z) (x :: l) = but_last l.
Proof.
  unfold py_slice, py_bound, but_last. simpl List.length.
  destruct (1 <? 0)%Z eqn:E1; [done|]. destruct (-1 <? 0)%Z eqn:E2; [|done].
  replace (Z.to_nat (Z.min 1 (Z.of_nat (S (List.length l))))) with 1%nat by lia.
  simpl. f_equal. lia.
Qed.

Lemma py_slice_augmented {A : Type} (l : list A) (y : A) :
  py_slice None (Some (-2)%Z) (l ++ [y]) = but_last l.
Proof.
  unfold py_slice, py_bound, but_last. rewrite length_app. simpl List.length.
  destruct (-2 <? 0)%Z eqn:E2; [|done]. simpl skipn.
  replace (Z.to_nat (Z.max 0 (Z.of_nat (List.length l + 1) + -2) - 0))
    with (List.length l - 1)%nat by lia.
  apply take_app_le. lia.
Qed.


Section ExistingDomain.

Variable cur_time : pyval.

Local Arguments py_slice : simpl never.
Local Arguments but_last : simpl never.

Ltac run := unfold bind, connect, close, get_already_stored, get_organization_id,
  get_license_contact_details_id_list, do_store_part_1, do_store_part_2,
  log_event, get_db, put_db, modify_self, ret, raise, py_index; simpl.

(** X10: when the domain of the candidate is already stored, in one row,
    [store_one_response] compares all columns but the id and the time of the
    last synchronisation.  If they are equal nothing is written; if one
    differs the row gets the new columns, keeps its id and its place, and
    [ct_stored] goes up by one.  Either way the answer is [False]. *)
Theorem store_one_response_existing_domain
    (single_response : Item.properties) (company : string)
    (name domain : string) (data : list pyval)
    (s : LoadOrganizations) (before after : list org_row) (row : org_row)
    (lcds : list lcd_row) (lics : list license_row) (nid : Z)
    (tr : list db_event) (sl : list Z) :
  Item.name single_response = Some name ->
  Item.domain single_response = Some domain ->
  PyStr.nonempty name = true ->
  PyStr.nonempty domain = true ->
  setup_data_item_org cur_time single_response = Some data ->
  org_domain row = PStr (PyStr.rstrip_char "/" domain) ->
  PStr (PyStr.rstrip_char "/" domain) ∉ map org_domain (before ++ after) ->
  store_one_response cur_time single_response company
    (mkWorld s (mkDatabase (before ++ row :: after) lcds lics nid tr) sl)
  = if bool_decide (but_last (org_cols row) = but_last data)
    then (Ok (Some false),
          mkWorld s
            (mkDatabase (before ++ row :: after) lcds lics nid
               (tr ++ [Connected; Executed SELECT_domains;
                       Executed SELECT_organization_by_domain; Closed])) sl)
    else (Ok (Some false),
          mkWorld (set_ct_stored (fun n => n + 1)%Z s)
            (mkDatabase
               (before ++ {| org_id := org_id row; org_cols := data |} :: after)
               lcds lics nid
               (tr ++ [Connected; Executed SELECT_domains;
                       Executed SELECT_organization_by_domain;
                       Executed UPDATE_organization; Closed])) sl).
Proof.
  intros Hname Hdomain Hn Hd Hdata Hrow Hfresh.
  set (key := PStr (PyStr.rstrip_char "/" domain)) in *.
  assert (Hb : key ∉ map org_domain before)
    by (intros H; apply Hfresh; rewrite map_app; apply elem_of_app; by left).
  assert (Ha : key ∉ map org_domain after)
    by (intros H; apply Hfresh; rewrite map_app; apply elem_of_app; by right).
  assert (Hfilter : List.filter (fun r => bool_decide (org_domain r = key))
                      (before ++ row :: after) = [row]).
  { rewrite List.filter_app. simpl.
    rewrite (no_row_of_domain _ _ Hb), (no_row_of_domain _ _ Ha).
    by rewrite bool_decide_eq_true_2. }
  assert (Hmap : forall cols,
            map (fun r => if bool_decide (org_domain r = key)
                          then {| org_id := org_id r; org_cols := cols |} else r)
                (before ++ row :: after)
            = before ++ {| org_id := org_id row; org_cols := cols |} :: after).
  { intros cols. rewrite map_app. simpl. rewrite bool_decide_eq_true_2 by done.
    f_equal; [|f_equal]; apply map_if_false; intros r Hr;
      apply bool_decide_eq_false; intros Heq'; [apply Hb|apply Ha];
      rewrite <- Heq'; by apply list_elem_of_In, in_map, list_elem_of_In. }
  unfold store_one_response. rewrite Hname, Hdomain, Hn, Hd, Hdata.
  unfold setup_data_item_org in Hdata. rewrite Hname, Hdomain in Hdata.
  injection Hdata as <-. fold key.
  cbn [negb orb]. run. fold key.
  rewrite bool_decide_eq_true_2; cycle 1.
  { rewrite map_app. apply elem_of_app. right. simpl. rewrite Hrow.
    apply list_elem_of_here. }
  unfold do_update, is_item_different. run. fold key.
  rewrite !Hfilter. cbn [List.length Z.of_nat].
  rewrite py_slice_row.
  match goal with
  | |- context [py_slice None (Some (-2)%Z) ?l] =>
      change l with ([PStr name; Item.primary_role single_response;
        Item.short_description single_response; key;
        Item.homepage_url single_response; Item.facebook_url single_response;
        Item.twitter_url single_response; Item.linkedin_url single_response;
        Item.api_url single_response; Item.city_name single_response;
        Item.region_name single_response; Item.country_code single_response;
        Item.stock_exchange single_response; Item.stock_symbol single_response;
        Item.created_at single_response; Item.updated_at single_response;
        cur_time] ++ [key])
  end.
  rewrite py_slice_augmented.
  case_bool_decide as Heq; simpl.
  - by rewrite <- !app_assoc.
  - rewrite !Hfilter. unfold set_organizations. simpl.
    rewrite Hmap. by rewrite <- !app_assoc.
Qed.


End ExistingDomain.

Section DriverMore.

Variable tlds : gset string.
Variable isp_domains : list string.
Variable cur_time : pyval.
Variable SLEEP_SECS : Z.
Variable query_cb_orgs_by_domain : Z -> string -> list Item.properties.
Variable query_cb_orgs_by_name : Z -> string -> list Item.properties.
Variable session_ok : Z -> bool.

Lemma set_ct_stored_eta s :
  set_ct_stored (fun _ => ct_stored s) (set_ct_stored (fun _ => 0%Z) s) = s.
Proof. by destruct s. Qed.

(** The upsert layer keeps every property of the counters that does not
    look at [ct_stored]. *)
Lemma store_keeps_counters (P : LoadOrganizations -> Prop) r company :
  ignores_ct_stored P ->
  keeps (fun w => P (self w)) (store_one_response cur_time r company).
Proof.
  intros HP w Hw.
  destruct (frame_store_one_response cur_time w r company w) as (Hs & _).
  { repeat split. lia. }
  rewrite <- set_ct_stored_eta, Hs. apply HP, HP, Hw.
Qed.




(** *** Invariants of a whole run *)

Section RunInvariant.

Variable I : world -> Prop.
Hypothesis I_handle : forall company domain,
  keeps I (handle_non_isp_domain tlds cur_time query_cb_orgs_by_domain
                                 query_cb_orgs_by_name company domain).
Hypothesis I_sleep : forall secs, keeps I (sleep secs).
Hypothesis I_isps : keeps I (modify_self (set_ct_isps incr)).
Hypothesis I_examined : keeps I (modify_self (set_items_examined incr)).
Hypothesis I_skipped : keeps I (modify_self (set_items_skipped incr)).
Hypothesis I_not_skipped : keeps I (modify_self (set_items_not_skipped incr)).

Lemma handle_company_and_email_keeps company email :
  keeps I (handle_company_and_email tlds isp_domains cur_time
             query_cb_orgs_by_domain query_cb_orgs_by_name company email).
Proof.
  unfold handle_company_and_email, handle_bad_email, handle_isp_domain.
  keep_step ltac:(first [ apply I_handle | apply I_isps ]).
Qed.

Lemma license_loop_keeps records :
  keeps I (license_loop tlds isp_domains cur_time SLEEP_SECS
             query_cb_orgs_by_domain query_cb_orgs_by_name records).
Proof.
  induction records as [|[email company] rest IH]; cbn [license_loop];
    keep_step ltac:(first [ apply I_sleep | apply I_examined | apply I_skipped
                          | apply I_not_skipped
                          | apply handle_company_and_email_keeps | apply IH ]).
Qed.

Lemma connect_loop_keeps fuel :
  forall connected backoff_multiplier,
    keeps I (connect_loop session_ok fuel connected backoff_multiplier).
Proof.
  induction fuel as [|fuel IH]; intros connected m; cbn [connect_loop];
    keep_step ltac:(first [ apply I_sleep | apply IH ]).
Qed.

Lemma get_each_license_keeps records :
  keeps I (get_each_license tlds isp_domains cur_time SLEEP_SECS
             query_cb_orgs_by_domain query_cb_orgs_by_name session_ok records).
Proof.
  unfold get_each_license, connect_to_cb_or_die.
  keep_step ltac:(first [ apply connect_loop_keeps | apply license_loop_keeps ]).
Qed.

End RunInvariant.


Lemma handle_non_isp_domain_consistent company domain :
  keeps consistent_world
    (handle_non_isp_domain tlds cur_time query_cb_orgs_by_domain
                           query_cb_orgs_by_name company domain).
Proof.
  unfold handle_non_isp_domain, tally_domain_hits, tally_name_hits, pick_and_store.
  keep_step ltac:(first [ apply consistent_modify_self
                        | apply store_one_response_keeps_consistent ]).
Qed.

(** X13: a run keeps the table of organizations consistent, however it
    ends: at most one row for a domain and for an id, every id behind the
    sequence. *)
Theorem run_store_consistent (records : list (string * string)) (w : world) :
  store_consistent (db w) ->
  store_consistent
    (db (snd (get_each_license tlds isp_domains cur_time SLEEP_SECS
                query_cb_orgs_by_domain query_cb_orgs_by_name session_ok
                records w))).
Proof.
  apply (get_each_license_keeps consistent_world).
  - apply handle_non_isp_domain_consistent.
  - apply consistent_sleep.
  - apply consistent_modify_self.
  - apply consistent_modify_self.
  - apply consistent_modify_self.
  - apply consistent_modify_self.
Qed.

End DriverMore.

(** X14: [get_env_vars] returns the five settings when the environment has
    all five variables, and ends the process with exit code 1 when one is
    missing. *)
Theorem get_env_vars_exit (environ : gmap string string) :
  (Forall (fun v => is_Some (environ !! v)) required_variables /\
   exists c, get_env_vars environ = Ok c /\
             environ !! "API_KEY" = Some (api_key c) /\
             environ !! "DBHOST" = Some (db_host c) /\
             environ !! "DBNAME" = Some (db_name c) /\
             environ !! "DBUSER" = Some (db_user c) /\
             environ !! "DBPASSWD" = Some (db_password c)) \/
  (Exists (fun v => environ !! v = None) required_variables /\
   get_env_vars environ = Raise (SystemExit 1)).
Proof.
  unfold get_env_vars, required_variables.
  destruct (environ !! "API_KEY") as [v1|] eqn:H1;
    [|right; split; [|done]; by apply Exists_cons_hd].
  destruct (environ !! "DBHOST") as [v2|] eqn:H2;
    [|right; split; [|done]; by apply Exists_cons_tl, Exists_cons_hd].
  destruct (environ !! "DBNAME") as [v3|] eqn:H3;
    [|right; split; [|done]; by do 2 apply Exists_cons_tl; apply Exists_cons_hd].
  destruct (environ !! "DBUSER") as [v4|] eqn:H4;
    [|right; split; [|done]; by do 3 apply Exists_cons_tl; apply Exists_cons_hd].
  destruct (environ !! "DBPASSWD") as [v5|] eqn:H5;
    [|right; split; [|done]; by do 4 apply Exists_cons_tl; apply Exists_cons_hd].
  left. split.
  - repeat (apply Forall_cons; split; [by eexists|]). apply Forall_nil_2.
  - by eexists.
Qed.

Section ConnectMore.

Variable session_ok : Z -> bool.

(** X15: when the session opens at attempt [k] of the four and at none
    before it, [connect_to_cb_or_die] returns after sleeping 30 seconds
    times the attempt number after each failed attempt, and touches nothing
    else. *)
Theorem connect_to_cb_or_die_attempt (k : Z) (w : world) :
  (1 <= k <= 4)%Z ->
  (forall j, (1 <= j < k)%Z -> session_ok j = false) ->
  session_ok k = true ->
  connect_to_cb_or_die session_ok w
  = (Ok tt,
     mkWorld (self w) (db w)
       (slept w ++ map (fun j => (30 * j)%Z) (seqZ 1 (k - 1)))).
Proof.
  intros Hk Hfail Hok.
  assert (Hcases : k = 1%Z \/ k = 2%Z \/ k = 3%Z \/ k = 4%Z) by lia.
  unfold connect_to_cb_or_die, connect_loop, bind, sleep, ret, raise.
  destruct Hcases as [-> | [-> | [-> | ->]]]; simpl;
    change (1 + 1 + 1 + 1)%Z with 4%Z; change (1 + 1 + 1)%Z with 3%Z;
    change (1 + 1)%Z with 2%Z.
  - rewrite Hok. simpl. destruct w. simpl. by rewrite app_nil_r.
  - rewrite (Hfail 1%Z) by lia. simpl. rewrite Hok. by simpl.
  - rewrite (Hfail 1%Z) by lia. simpl. rewrite (Hfail 2%Z) by lia. simpl.
    rewrite Hok. simpl. by rewrite <- !app_assoc.
  - rewrite (Hfail 1%Z) by lia. simpl. rewrite (Hfail 2%Z) by lia. simpl.
    rewrite (Hfail 3%Z) by lia. simpl.
    rewrite Hok. simpl. by rewrite <- !app_assoc.
Qed.

End ConnectMore.

Section DriverFrames.

Variable tlds : gset string.
Variable isp_domains : list string.
Variable cur_time : pyval.
Variable SLEEP_SECS : Z.
Variable query_cb_orgs_by_domain : Z -> string -> list Item.properties.
Variable query_cb_orgs_by_name : Z -> string -> list Item.properties.
Variable session_ok : Z -> bool.

Lemma record_frame_store_one_response a b c sl r company :
  keeps (record_frame a b c sl) (store_one_response cur_time r company).
Proof.
  intros w (Ha & Hb & Hc & Hsl).
  destruct (frame_store_one_response cur_time w r company w) as (Hs & _ & Hsl' & _).
  { repeat split. lia. }
  repeat split; [| | |congruence].
  - apply (f_equal items_examined) in Hs. simpl in Hs. congruence.
  - apply (f_equal items_skipped) in Hs. simpl in Hs. congruence.
  - apply (f_equal items_not_skipped) in Hs. simpl in Hs. congruence.
Qed.

Lemma record_frame_handle_non_isp_domain a b c sl company domain :
  keeps (record_frame a b c sl)
    (handle_non_isp_domain tlds cur_time query_cb_orgs_by_domain
                           query_cb_orgs_by_name company domain).
Proof.
  unfold handle_non_isp_domain, tally_domain_hits, tally_name_hits, pick_and_store.
  keep_step ltac:(first
    [ apply record_frame_store_one_response
    | by intros w0 (? & ? & ? & ?) ]).
Qed.

Lemma record_frame_handle_company_and_email a b c sl company email :
  keeps (record_frame a b c sl)
    (handle_company_and_email tlds isp_domains cur_time query_cb_orgs_by_domain
                              query_cb_orgs_by_name company email).
Proof.
  apply handle_company_and_email_keeps.
  - intros. apply record_frame_handle_non_isp_domain.
  - by intros w0 (? & ? & ? & ?).
Qed.

(** A domain that was handled is in the cache of queried domains. *)
Lemma handle_non_isp_domain_cached company domain w :
  domain ∈ domains_queried
             (self (snd (handle_non_isp_domain tlds cur_time query_cb_orgs_by_domain
                           query_cb_orgs_by_name company domain w))).
Proof.
  unfold handle_non_isp_domain. unfold bind at 1, get_self at 1.
  case_bool_decide as Hin; [done|].
  unfold bind at 1, modify_self at 1.
  match goal with
  | |- _ ∈ domains_queried (self (snd (?m ?W))) =>
      assert (Hk : keeps (fun w => domain ∈ domains_queried (self w)) m);
        [|apply (Hk W)]
  end.
  - unfold tally_domain_hits, tally_name_hits, pick_and_store.
    keep_step ltac:(first
      [ apply (store_keeps_counters cur_time
                 (fun s => domain ∈ domains_queried s)); by intros s0 c0
      | by intros w0 ]).
  - simpl. set_solver.
Qed.

(** X16: a domain is queried at most once in a run.  After a first record
    of a domain has been handled, however that ended, a second record of
    the same domain only moves [repeat_domains]: no query is made and the
    store and every other counter stay as they are. *)
Theorem handle_non_isp_domain_repeat company company' domain w :
  handle_non_isp_domain tlds cur_time query_cb_orgs_by_domain
    query_cb_orgs_by_name company' domain
    (snd (handle_non_isp_domain tlds cur_time query_cb_orgs_by_domain
            query_cb_orgs_by_name company domain w))
  = (Ok (Some false),
     mkWorld
       (set_repeat_domains incr
          (self (snd (handle_non_isp_domain tlds cur_time query_cb_orgs_by_domain
                        query_cb_orgs_by_name company domain w))))
       (db (snd (handle_non_isp_domain tlds cur_time query_cb_orgs_by_domain
                   query_cb_orgs_by_name company domain w)))
       (slept (snd (handle_non_isp_domain tlds cur_time query_cb_orgs_by_domain
                      query_cb_orgs_by_name company domain w)))).
Proof.
  pose proof (handle_non_isp_domain_cached company domain w) as Hin.
  set (w1 := snd _) in *.
  unfold handle_non_isp_domain at 1. unfold bind at 1, get_self at 1.
  by rewrite bool_decide_eq_true_2.
Qed.

Lemma throttle_sleeps_done k :
  (0 <= k)%Z ->
  throttle_sleeps k 0
  = if truthy k && negb (truthy (k mod 25)) && (0 <? k)%Z then 1%Z else 0%Z.
Proof.
  intros Hk. unfold throttle_sleeps, truthy.
  destruct (k =? 0)%Z eqn:Hk0; simpl.
  - apply Z.eqb_eq in Hk0 as ->. done.
  - apply Z.eqb_neq in Hk0.
    destruct (k mod 25 =? 0)%Z eqn:Hm; simpl.
    + apply Z.eqb_eq in Hm. destruct (0 <? k)%Z eqn:Hp; [|apply Z.ltb_ge in Hp; lia].
      rewrite Z.add_0_r. Z.div_mod_to_equations. lia.
    + apply Z.eqb_neq in Hm. rewrite Z.add_0_r. Z.div_mod_to_equations. lia.
Qed.

Lemma throttle_sleeps_step k n :
  (0 <= k)%Z -> (0 <= n)%Z ->
  throttle_sleeps k (n + 1)
  = ((if truthy k && negb (truthy (k mod 25)) && (0 <? k)%Z then 1 else 0)
     + throttle_sleeps (k + 1) n)%Z.
Proof.
  intros Hk Hn. unfold throttle_sleeps, truthy.
  replace (k + 1 =? 0)%Z with false by (symmetry; apply Z.eqb_neq; lia).
  replace (k + 1 - 1)%Z with k by lia. replace (k + 1 + n)%Z with (k + (n + 1))%Z by lia.
  destruct (k =? 0)%Z eqn:Hk0; simpl.
  - apply Z.eqb_eq in Hk0 as ->. cbn [Z.eqb negb andb]. Z.div_mod_to_equations. lia.
  - apply Z.eqb_neq in Hk0.
    destruct (k mod 25 =? 0)%Z eqn:Hm; simpl.
    + apply Z.eqb_eq in Hm. destruct (0 <? k)%Z eqn:Hp; [|apply Z.ltb_ge in Hp; lia].
      Z.div_mod_to_equations. lia.
    + apply Z.eqb_neq in Hm. Z.div_mod_to_equations. lia.
Qed.

Lemma throttle_sleeps_nonneg k n :
  (0 <= k)%Z -> (0 <= n)%Z -> (0 <= throttle_sleeps k n)%Z.
Proof.
  intros Hk Hn. unfold throttle_sleeps.
  destruct (k =? 0)%Z; Z.div_mod_to_equations; lia.
Qed.

(** The loop over [n] records, started after [k] records, examines and
    does not skip [n] more, and sleeps at every multiple of 25. *)
Lemma license_loop_counters records :
  forall k w w',
    (0 <= k)%Z ->
    items_examined (self w) = k -> items_not_skipped (self w) = k ->
    license_loop tlds isp_domains cur_time SLEEP_SECS query_cb_orgs_by_domain
                 query_cb_orgs_by_name records w = (Ok tt, w') ->
    items_examined (self w') = (k + Z.of_nat (List.length records))%Z /\
    items_not_skipped (self w') = (k + Z.of_nat (List.length records))%Z /\
    items_skipped (self w') = items_skipped (self w) /\
    slept w'
    = slept w ++
      replicate (Z.to_nat (throttle_sleeps k (Z.of_nat (List.length records))))
                SLEEP_SECS.
Proof.
  induction records as [|[email company] rest IH]; intros k w w' Hk He Hns Hrun.
  - cbn [license_loop] in Hrun. unfold bind, get_self, sleep, ret in Hrun.
    simpl List.length. rewrite throttle_sleeps_done by done.
    rewrite He, Hns in Hrun.
    destruct (_ && _ && _) in *; injection Hrun as <-; simpl;
      rewrite ?app_nil_r; repeat split; lia.
  - cbn [license_loop] in Hrun. unfold bind at 1 2, get_self at 1 in Hrun.
    rewrite He, Hns in Hrun.
    set (sleeps := truthy k && negb (truthy (k mod 25)) && (0 <? k)%Z) in *.
    set (w0 := mkWorld (self w) (db w)
                 (slept w ++ if sleeps then [SLEEP_SECS] else [])).
    assert (Hsl : (if sleeps then sleep SLEEP_SECS else ret tt) w = (Ok tt, w0)).
    { unfold w0. destruct sleeps; [done|]. unfold ret. rewrite app_nil_r. by destruct w. }
    rewrite Hsl in Hrun.
    unfold bind at 1 2, modify_self at 1, get_self at 1 in Hrun.
    cbn [self db slept w0 items_examined set_items_examined incr] in Hrun.
    rewrite He in Hrun.
    destruct (_ <? 0)%Z eqn:Hlt in Hrun; [apply Z.ltb_lt in Hlt; unfold incr in Hlt; lia|].
    unfold bind at 1, modify_self at 1 in Hrun. cbn [self db slept] in Hrun.
    unfold bind at 1 in Hrun.
    match type of Hrun with
    | context [handle_company_and_email _ _ _ _ _ ?c ?e ?w1] =>
        pose proof (record_frame_handle_company_and_email
                      (k + 1)%Z (items_skipped (self w)) (k + 1)%Z
                      (slept w ++ if sleeps then [SLEEP_SECS] else []) c e w1)
          as Hframe;
        destruct (handle_company_and_email tlds isp_domains cur_time
                    query_cb_orgs_by_domain query_cb_orgs_by_name c e w1)
          as [[[]|err] w2] eqn:Hhandle; [|done]
    end.
    destruct Hframe as (He2 & Hsk2 & Hns2 & Hsl2).
    { repeat split; simpl; unfold incr; lia. }
    simpl in He2, Hsk2, Hns2, Hsl2.
    apply (IH (k + 1)%Z) in Hrun as (He3 & Hns3 & Hsk3 & Hsl3); [|lia|done|done].
    simpl List.length. rewrite Nat2Z.inj_succ, <- Z.add_1_r.
    rewrite throttle_sleeps_step by lia. fold sleeps.
    repeat split; try lia.
    rewrite Hsl3, Hsl2, <- app_assoc. f_equal.
    pose proof (throttle_sleeps_nonneg (k + 1) (Z.of_nat (List.length rest))) as Hnn.
    destruct sleeps; simpl.
    + rewrite Z2Nat.inj_add by lia. done.
    + done.
Qed.

(** X17: a run that goes through all its records, on a session that opens
    at once, examines every record and skips none, and sleeps [SLEEP_SECS]
    once for every 25 records (also after the last record when their number
    is a multiple of 25). *)
Theorem run_counters_and_sleeps (records : list (string * string)) (w w' : world) :
  session_ok 1 = true ->
  items_examined (self w) = 0%Z ->
  items_not_skipped (self w) = 0%Z ->
  get_each_license tlds isp_domains cur_time SLEEP_SECS query_cb_orgs_by_domain
                   query_cb_orgs_by_name session_ok records w = (Ok tt, w') ->
  items_examined (self w') = Z.of_nat (List.length records) /\
  items_not_skipped (self w') = Z.of_nat (List.length records) /\
  items_skipped (self w') = items_skipped (self w) /\
  slept w'
  = slept w ++ replicate (List.length records / 25)%nat SLEEP_SECS.
Proof.
  intros Hok He Hns Hrun. unfold get_each_license in Hrun. unfold bind at 1 in Hrun.
  rewrite (connect_to_cb_or_die_first_attempt session_ok w Hok) in Hrun.
  apply (license_loop_counters records 0%Z) in Hrun as (H1 & H2 & H3 & H4);
    [|lia|done|done].
  repeat split; try done. rewrite H4. f_equal. f_equal.
  unfold throttle_sleeps. cbn [Z.eqb]. rewrite Z.add_0_l, Z.sub_0_r.
  change 25%Z with (Z.of_nat 25). rewrite <- Nat2Z.inj_div. apply Nat2Z.id.
Qed.

End DriverFrames.

Section MoreResolver.

Variable tlds : gset string.

Lemma filter_all_in_app (l more : list string) :
  List.filter (fun item => bool_decide (item ∈ l ++ more)) l = l.
Proof.
  assert (H : forall l', (forall x, x ∈ l' -> x ∈ l) ->
            List.filter (fun item => bool_decide (item ∈ l ++ more)) l' = l').
  { induction l' as [|a l' IH]; intros Hsub; [done|]. simpl.
    rewrite bool_decide_eq_true_2
      by (apply elem_of_app; left; apply Hsub, list_elem_of_here).
    f_equal. apply IH. intros x Hx. by apply Hsub, list_elem_of_further. }
  by apply H.
Qed.

Lemma leading_matches_app (l more : list string) :
  leading_matches l (l ++ more) = Z.of_nat (List.length l).
Proof.
  induction l as [|a l IH]; [by destruct more|].
  cbn [leading_matches app]. rewrite bool_decide_eq_true_2 by done.
  rewrite IH. simpl List.length. lia.
Qed.

(** X18: a candidate whose name, in lower case and cut at white space,
    begins with all the words of the company name, in their order, is
    proposed by [pick_by_matches], whatever words follow them. *)
Theorem pick_by_matches_leading_words ix item_name company_word_list more :
  company_word_list <> [] ->
  PyStr.split_ws (PyStr.lower (shorten_if_dotted tlds item_name))
  = company_word_list ++ more ->
  pick_by_matches tlds ix item_name company_word_list = ([item_name], [ix]).
Proof.
  intros Hne Hwords. unfold pick_by_matches.
  rewrite Hwords, filter_all_in_app, length_app, Nat2Z.inj_add.
  unfold check_mismatches_are_at_end_of_response_list.
  rewrite leading_matches_app.
  destruct company_word_list as [|c cs]; [done|].
  assert (Hpos : (Z.of_nat (List.length (c :: cs)) =? 0)%Z = false)
    by (apply Z.eqb_neq; simpl List.length; lia).
  rewrite Z.max_l by lia. rewrite Hpos. clear Hpos. cbn [negb andb app].
  case (_ =? 0)%Z; [done|].
  rewrite (proj2 (Z.eqb_eq _ _)); [done|].
  change (c :: cs ++ more) with ((c :: cs) ++ more). rewrite length_app. lia.
Qed.

End MoreResolver.

(** X19: the compensating DELETE of [remove_company_from_orgs] leaves the
    licenses and the license-contact-details table as they are, and the only
    rows it removes carry the given name and have no license pointing to
    them. *)
Theorem remove_company_from_orgs_spares (company : string) (w : world) :
  pn_licenses (db (snd (remove_company_from_orgs company w))) = pn_licenses (db w) /\
  pn_license_contact_details (db (snd (remove_company_from_orgs company w)))
  = pn_license_contact_details (db w) /\
  forall o,
    o ∈ pn_organizations (db w) ->
    o ∉ pn_organizations (db (snd (remove_company_from_orgs company w))) ->
    org_name o = PStr company /\
    forall l, l ∈ pn_licenses (db w) -> organizations_id l <> Some (org_id o).
Proof.
  destruct w as [s [orgs lcds lics nid tr] sl]. simpl.
  unfold remove_company_from_orgs, bind, log_event, get_db, put_db, ret, raise. simpl.
  set (named := fun o => bool_decide (org_name o = PStr company)).
  split; [by repeat case_match|]. split; [by repeat case_match|].
  intros o Ho.
  assert (Hguard : (forall x, x ∈ linked_organizations_ids company
                     (mkDatabase orgs lcds lics nid (tr ++ [Executed DELETE_organization]))
                     -> x = None) ->
            named o = true ->
            forall l, l ∈ lics -> organizations_id l <> Some (org_id o)).
  { intros Hnone Hnamed l Hl Hlink.
    assert (Hin : organizations_id l ∈ linked_organizations_ids company
                     (mkDatabase orgs lcds lics nid
                        (tr ++ [Executed DELETE_organization]))).
    { unfold linked_organizations_ids. simpl.
      apply elem_of_remove_dups, list_elem_of_In, in_flat_map.
      exists o. split; [apply filter_In; split; [by apply list_elem_of_In|done]|].
      assert (Hf : l ∈ List.filter
                     (fun l0 => bool_decide (organizations_id l0 = Some (org_id o))) lics).
      { apply list_elem_of_In, filter_In. split; [by apply list_elem_of_In|].
        by apply bool_decide_eq_true. }
      destruct (List.filter _ lics) as [|l0 ls] eqn:Hfilter;
        [by apply elem_of_nil in Hf|].
      apply (in_map organizations_id (l0 :: ls) l), list_elem_of_In, Hf. }
    apply Hnone in Hin. congruence. }
  assert (Hgone : o ∉ List.filter (fun o0 => negb (named o0)) orgs -> named o = true).
  { intros Hout. destruct (named o) eqn:Hn; [done|]. destruct Hout.
    apply list_elem_of_In, filter_In. split; [by apply list_elem_of_In|].
    by rewrite Hn. }
  destruct (linked_organizations_ids company _) as [|[v|] [|v' vs]] eqn:Hids; simpl;
    try (intros Hout; by destruct Hout).
  - case_match; simpl; intros Hout; pose proof (Hgone Hout) as Hn;
      (split; [by apply bool_decide_eq_true in Hn|]);
      apply Hguard; [intros x Hx; by apply elem_of_nil in Hx|done
                    |intros x Hx; by apply elem_of_nil in Hx|done].
  - case_match; simpl; intros Hout; pose proof (Hgone Hout) as Hn;
      (split; [by apply bool_decide_eq_true in Hn|]);
      apply Hguard;
      [intros x Hx; by apply list_elem_of_singleton in Hx|done
      |intros x Hx; by apply list_elem_of_singleton in Hx|done].
Qed.

Section RunBalance.

Variable tlds : gset string.
Variable isp_domains : list string.
Variable cur_time : pyval.
Variable SLEEP_SECS : Z.
Variable query_cb_orgs_by_domain : Z -> string -> list Item.properties.
Variable query_cb_orgs_by_name : Z -> string -> list Item.properties.
Variable session_ok : Z -> bool.

(** X20: in a run that goes through all its records, every record with a
    usable address is accounted for by exactly one of the five tallies of
    the report; the records that no tally accounts for are those with a bad
    address. *)
Theorem run_unaccounted (records : list (string * string)) (w w' : world) :
  (0 <= items_examined (self w))%Z ->
  get_each_license tlds isp_domains cur_time SLEEP_SECS query_cb_orgs_by_domain
                   query_cb_orgs_by_name session_ok records w = (Ok tt, w') ->
  unaccounted (self w') = (unaccounted (self w) + bad_emails records)%Z.
Proof.
  intros Hpos Hrun. unfold get_each_license in Hrun. unfold bind at 1 in Hrun.
  destruct (connect_to_cb_or_die session_ok w) as [[[]|e] w0] eqn:Hconnect; [|done].
  pose proof (connect_loop_keeps session_ok
                (fun w1 => self w1 = self w) (fun secs w1 H => H) 4 false 1%Z w eq_refl)
    as Hself.
  unfold connect_to_cb_or_die, bind in Hconnect.
  destruct (connect_loop session_ok 4 false 1 w) as [[c|e] w1] eqn:Hloop; [|done].
  simpl in Hself.
  assert (w1 = w0) as -> by (destruct c as [[]|]; by injection Hconnect).
  apply license_loop_unaccounted in Hrun; [|by rewrite Hself].
  by rewrite Hrun, Hself.
Qed.

End RunBalance.

(** ** The further properties on concrete inputs *)

Lemma get_domain_from_shape_witness :
  get_domain_from "joe@acme.com" = Some "acme.com" /\
  exists local_part,
    "joe@acme.com" = String.append local_part (String "@" "acme.com") /\
    local_part <> EmptyString /\
    free_of "@" "acme.com" /\
    (0 < PyStr.rfind "." "acme.com")%Z.
Proof.
  assert (H : get_domain_from "joe@acme.com" = Some "acme.com") by reflexivity.
  exact (conj H (get_domain_from_shape "joe@acme.com" "acme.com" H)).
Defined.

Lemma get_initials_append_witness :
  "International" <> EmptyString /\
  ends_in_space "International" = false /\
  get_initials (String.append "International" (String " " "Business Machines"))
  = String.append (get_initials "International") (get_initials "Business Machines").
Proof.
  assert (H1 : "International" <> EmptyString) by discriminate.
  assert (H2 : ends_in_space "International" = false) by reflexivity.
  exact (conj H1 (conj H2
           (get_initials_append "International" "Business Machines" H1 H2))).
Defined.

Lemma pick_match_sound_witness :
  pick_match ∅ "Acme Corp" "zzz" [named "Other"; named " Acme Corp "]
  = Ok (Some (1%nat, " Acme Corp ")) /\
  exists item n,
    [named "Other"; named " Acme Corp "] !! 1%nat = Some item /\
    Item.name item = Some n /\
    (" Acme Corp " = PyStr.strip n \/ " Acme Corp " = n).
Proof.
  assert (H : pick_match ∅ "Acme Corp" "zzz" [named "Other"; named " Acme Corp "]
              = Ok (Some (1%nat, " Acme Corp "))) by (vm_compute; reflexivity).
  exact (conj H (pick_match_sound ∅ "Acme Corp" "zzz"
                   [named "Other"; named " Acme Corp "] 1%nat " Acme Corp " H)).
Defined.

Lemma pick_match_returns_witness :
  Forall (fun item => is_Some (Item.name item)) [named "Other"; named "Acme Corp"] /\
  exists outcome,
    pick_match ∅ "Acme Corp" "zzz" [named "Other"; named "Acme Corp"] = Ok outcome.
Proof.
  assert (H : Forall (fun item => is_Some (Item.name item))
                [named "Other"; named "Acme Corp"]).
  { constructor; [by eexists|]. constructor; [by eexists|constructor]. }
  exact (conj H (pick_match_returns ∅ "Acme Corp" "zzz"
                   [named "Other"; named "Acme Corp"] H)).
Defined.

Lemma pick_match_first_decisive_witness :
  (2 <= String.length "Zzz")%nat /\
  Forall (fun p => is_Some (Item.name p) /\ decisive ∅ "acme" p = false)
    [named "Acme Corp"] /\
  Item.name (named " Acme ") = Some " Acme " /\
  decisive ∅ "acme" (named " Acme ") = true /\
  pick_match ∅ "Zzz" "acme"
    ([named "Acme Corp"] ++ named " Acme " :: [named "Acme Industries"])
  = Ok (Some (List.length [named "Acme Corp"], PyStr.strip " Acme ")).
Proof.
  assert (H1 : (2 <= String.length "Zzz")%nat) by (simpl; lia).
  assert (H2 : Forall (fun p => is_Some (Item.name p) /\ decisive ∅ "acme" p = false)
                 [named "Acme Corp"]).
  { constructor; [split; [by eexists|vm_compute; reflexivity]|constructor]. }
  assert (H3 : Item.name (named " Acme ") = Some " Acme ") by reflexivity.
  assert (H4 : decisive ∅ "acme" (named " Acme ") = true) by (vm_compute; reflexivity).
  exact (conj H1 (conj H2 (conj H3 (conj H4
           (pick_match_first_decisive ∅ "Zzz" "acme" [named "Acme Corp"]
              (named " Acme ") [named "Acme Industries"] " Acme " H1 H2 H3 H4))))).
Defined.

Lemma store_one_response_consistent_witness :
  store_consistent (db linked_world) /\
  store_consistent
    (db (snd (store_one_response (PInt 1) (candidate "Acme" "acme.com") "Acme Inc"
                linked_world))).
Proof.
  assert (H : store_consistent (db linked_world)).
  { repeat split; [apply NoDup_singleton..|]. repeat constructor. }
  exact (conj H (store_one_response_consistent (PInt 1) (candidate "Acme" "acme.com")
                   "Acme Inc" linked_world H)).
Defined.

Lemma store_one_response_existing_domain_witness :
  Item.name (candidate "Acme Labs" "acme.io/") = Some "Acme Labs" /\
  Item.domain (candidate "Acme Labs" "acme.io/") = Some "acme.io/" /\
  PyStr.nonempty "Acme Labs" = true /\
  PyStr.nonempty "acme.io/" = true /\
  setup_data_item_org (PInt 5) (candidate "Acme Labs" "acme.io/")
  = Some (default [] (setup_data_item_org (PInt 5) (candidate "Acme Labs" "acme.io/"))) /\
  org_domain {| org_id := 1;
                org_cols := default []
                  (setup_data_item_org PNone (candidate "Acme" "acme.io")) |}
  = PStr (PyStr.rstrip_char "/" "acme.io/") /\
  (PStr (PyStr.rstrip_char "/" "acme.io/") ∉ map org_domain ([] ++ [])) /\
  store_one_response (PInt 5) (candidate "Acme Labs" "acme.io/") "Acme Inc"
    linked_world
  = (Ok (Some false),
     mkWorld (set_ct_stored (fun n => n + 1)%Z init_LoadOrganizations)
       (mkDatabase
          [{| org_id := 1;
              org_cols := default []
                (setup_data_item_org (PInt 5) (candidate "Acme Labs" "acme.io/")) |}]
          [] [{| license_contact_details_id := 7; organizations_id := Some 1%Z |}] 2
          [Connected; Executed SELECT_domains;
           Executed SELECT_organization_by_domain;
           Executed UPDATE_organization; Closed])
       []).
Proof.
  assert (H1 : Item.name (candidate "Acme Labs" "acme.io/") = Some "Acme Labs")
    by reflexivity.
  assert (H2 : Item.domain (candidate "Acme Labs" "acme.io/") = Some "acme.io/")
    by reflexivity.
  assert (H3 : PyStr.nonempty "Acme Labs" = true) by reflexivity.
  assert (H4 : PyStr.nonempty "acme.io/" = true) by reflexivity.
  assert (H5 : setup_data_item_org (PInt 5) (candidate "Acme Labs" "acme.io/")
               = Some (default [] (setup_data_item_org (PInt 5)
                                     (candidate "Acme Labs" "acme.io/"))))
    by reflexivity.
  assert (H6 : org_domain {| org_id := 1;
                             org_cols := default []
                               (setup_data_item_org PNone (candidate "Acme" "acme.io")) |}
               = PStr (PyStr.rstrip_char "/" "acme.io/")) by reflexivity.
  assert (H7 : PStr (PyStr.rstrip_char "/" "acme.io/") ∉ map org_domain ([] ++ []))
    by apply not_elem_of_nil.
  exact (conj H1 (conj H2 (conj H3 (conj H4 (conj H5 (conj H6 (conj H7
           (store_one_response_existing_domain (PInt 5)
              (candidate "Acme Labs" "acme.io/") "Acme Inc" "Acme Labs" "acme.io/"
              _ init_LoadOrganizations [] [] _ [] _ 2 [] [] H1 H2 H3 H4 H5 H6 H7)))))))).
Defined.



Lemma run_store_consistent_witness :
  store_consistent (db linked_world) /\
  store_consistent
    (db (snd (get_each_license ∅ [] (PInt 1) 0 acme_by_domain (fun _ _ => [])
                (fun _ => true)
                [("joe@acme.com", "Acme Inc"); ("ann@nowhere.org", "Nowhere")]
                linked_world))).
Proof.
  assert (H : store_consistent (db linked_world)).
  { repeat split; [apply NoDup_singleton..|]. repeat constructor. }
  exact (conj H (run_store_consistent ∅ [] (PInt 1) 0 acme_by_domain (fun _ _ => [])
                   (fun _ => true)
                   [("joe@acme.com", "Acme Inc"); ("ann@nowhere.org", "Nowhere")]
                   linked_world H)).
Defined.

Lemma connect_to_cb_or_die_attempt_witness :
  (1 <= 3 <= 4)%Z /\
  (forall j, (1 <= j < 3)%Z -> (j =? 3)%Z = false) /\
  (3 =? 3)%Z = true /\
  connect_to_cb_or_die (fun j => (j =? 3)%Z) example_world
  = (Ok tt,
     mkWorld (self example_world) (db example_world)
       (slept example_world ++ map (fun j => (30 * j)%Z) (seqZ 1 (3 - 1)))).
Proof.
  assert (H1 : (1 <= 3 <= 4)%Z) by lia.
  assert (H2 : forall j, (1 <= j < 3)%Z -> (j =? 3)%Z = false)
    by (intros j Hj; apply Z.eqb_neq; lia).
  assert (H3 : (3 =? 3)%Z = true) by reflexivity.
  exact (conj H1 (conj H2 (conj H3
           (connect_to_cb_or_die_attempt (fun j => (j =? 3)%Z) 3 example_world
              H1 H2 H3)))).
Defined.

Lemma run_counters_and_sleeps_witness :
  (fun _ : Z => true) 1%Z = true /\
  items_examined (self example_world) = 0%Z /\
  items_not_skipped (self example_world) = 0%Z /\
  get_each_license ∅ [] (PInt 1) 60 acme_by_domain (fun _ _ => []) (fun _ => true)
    (replicate 26 ("joe@acme.com", "Acme Inc")) example_world
  = (Ok tt,
     snd (get_each_license ∅ [] (PInt 1) 60 acme_by_domain (fun _ _ => [])
            (fun _ => true) (replicate 26 ("joe@acme.com", "Acme Inc"))
            example_world)) /\
  slept (snd (get_each_license ∅ [] (PInt 1) 60 acme_by_domain (fun _ _ => [])
                (fun _ => true) (replicate 26 ("joe@acme.com", "Acme Inc"))
                example_world))
  = slept example_world
      ++ replicate (List.length (replicate 26 ("joe@acme.com", "Acme Inc")) / 25)%nat
           60%Z.
Proof.
  assert (H1 : (fun _ : Z => true) 1%Z = true) by reflexivity.
  assert (H2 : items_examined (self example_world) = 0%Z) by reflexivity.
  assert (H3 : items_not_skipped (self example_world) = 0%Z) by reflexivity.
  assert (H4 : get_each_license ∅ [] (PInt 1) 60 acme_by_domain (fun _ _ => [])
                 (fun _ => true) (replicate 26 ("joe@acme.com", "Acme Inc"))
                 example_world
               = (Ok tt,
                  snd (get_each_license ∅ [] (PInt 1) 60 acme_by_domain
                         (fun _ _ => []) (fun _ => true)
                         (replicate 26 ("joe@acme.com", "Acme Inc"))
                         example_world))) by (vm_compute; reflexivity).
  exact (conj H1 (conj H2 (conj H3 (conj H4
           (proj2 (proj2 (proj2
              (run_counters_and_sleeps ∅ [] (PInt 1) 60 acme_by_domain
                 (fun _ _ => []) (fun _ => true)
                 (replicate 26 ("joe@acme.com", "Acme Inc")) example_world _
                 H1 H2 H3 H4)))))))).
Defined.

Lemma pick_by_matches_leading_words_witness :
  ["acme"; "corp"] <> [] /\
  PyStr.split_ws (PyStr.lower (shorten_if_dotted ∅ "Acme  Corp Holdings"))
  = ["acme"; "corp"] ++ ["holdings"] /\
  pick_by_matches ∅ 3 "Acme  Corp Holdings" ["acme"; "corp"]
  = (["Acme  Corp Holdings"], [3%nat]).
Proof.
  assert (H1 : ["acme"; "corp"] <> ([] : list string)) by discriminate.
  assert (H2 : PyStr.split_ws (PyStr.lower (shorten_if_dotted ∅ "Acme  Corp Holdings"))
               = ["acme"; "corp"] ++ ["holdings"]) by (vm_compute; reflexivity).
  exact (conj H1 (conj H2
           (pick_by_matches_leading_words ∅ 3 "Acme  Corp Holdings" ["acme"; "corp"]
              ["holdings"] H1 H2))).
Defined.

Lemma run_unaccounted_witness :
  (0 <= items_examined (self example_world))%Z /\
  get_each_license ∅ [] (PInt 1) 0 acme_by_domain (fun _ _ => []) (fun _ => true)
    [("joe.example.com", "Acme Inc"); ("joe@acme.com", "Acme Inc")] example_world
  = (Ok tt,
     snd (get_each_license ∅ [] (PInt 1) 0 acme_by_domain (fun _ _ => [])
            (fun _ => true)
            [("joe.example.com", "Acme Inc"); ("joe@acme.com", "Acme Inc")]
            example_world)) /\
  unaccounted
    (self (snd (get_each_license ∅ [] (PInt 1) 0 acme_by_domain (fun _ _ => [])
                  (fun _ => true)
                  [("joe.example.com", "Acme Inc"); ("joe@acme.com", "Acme Inc")]
                  example_world)))
  = (unaccounted (self example_world)
     + bad_emails [("joe.example.com", "Acme Inc"); ("joe@acme.com", "Acme Inc")])%Z.
Proof.
  assert (H1 : (0 <= items_examined (self example_world))%Z) by (simpl; lia).
  assert (H2 : get_each_license ∅ [] (PInt 1) 0 acme_by_domain (fun _ _ => [])
                 (fun _ => true)
                 [("joe.example.com", "Acme Inc"); ("joe@acme.com", "Acme Inc")]
                 example_world
               = (Ok tt,
                  snd (get_each_license ∅ [] (PInt 1) 0 acme_by_domain
                         (fun _ _ => []) (fun _ => true)
                         [("joe.example.com", "Acme Inc"); ("joe@acme.com", "Acme Inc")]
                         example_world))) by (vm_compute; reflexivity).
  exact (conj H1 (conj H2
           (run_unaccounted ∅ [] (PInt 1) 0 acme_by_domain (fun _ _ => [])
              (fun _ => true)
              [("joe.example.com", "Acme Inc"); ("joe@acme.com", "Acme Inc")]
              example_world _ H1 H2))).
Defined.
